(** * Slack shared library (Slack.js): a shallow embedding and its properties

    The library is a script that runs inside a workflow host.  Every
    exported function builds a request path, performs one or more blocking
    HTTP calls through the host's [http.request(...).write()], parses the
    JSON body of the answer and branches on its [ok] / [error] fields.

    The embedding follows the script function by function:
    - JavaScript values are a tree type [value]; objects are association
      lists, because [Object.keys] enumerates them in insertion order;
    - the host is a [World]: the answers the transport will give, the
      requests written so far, the console, and a store of the objects the
      caller owns (postMessage writes into its argument);
    - a function of the script is a function [World -> Outcome * World],
      where the outcome is a returned value or a thrown exception.

    Strings are sequences of 8-bit code units, read as the Latin-1 range of
    JavaScript's UTF-16 code units; on that range [toLowerCase] maps one
    code unit to one code unit.  The statement that canonicalizes a channel
    name is embedded a second time, in the module [Wide], over 16-bit code
    units and with the rows of the case table in which lower-casing
    lengthens a string; the two embeddings agree on the Latin-1 range.

    The coercions [to_string], [loose_eq_lit] and [encodeURIComponent] are
    given on every value, and are those of the script on the values
    [primitive] describes: [undefined], [null], booleans, strings and the
    integers a double holds exactly.  The statements about a value that
    the script prints or compares say so where it matters. *)

From Stdlib Require Import ZArith Lia Bool List Ascii String DecimalString.
From stdpp Require Import base option list strings gmap.

Local Open Scope string_scope.

(* ================================================================== *)
(** ** Characters and strings *)
(* ================================================================== *)

Module Str.

(** Code unit of a character. *)
Definition code (c : ascii) : N := N_of_ascii c.

(** The class [\s] of a JavaScript regular expression, restricted to code
    units below 256: TAB, LF, VT, FF, CR, SPACE and NO-BREAK SPACE. *)
Definition is_space (c : ascii) : bool :=
  let n := code c in
  ((9 <=? n) && (n <=? 13) || (n =? 32) || (n =? 160))%N.

(** Letters that [toLowerCase] changes: A-Z, and the Latin-1 capitals
    U+00C0..U+00DE without the multiplication sign U+00D7. *)
Definition is_upper (c : ascii) : bool :=
  let n := code c in
  ((65 <=? n) && (n <=? 90)
   || (192 <=? n) && (n <=? 222) && negb (n =? 215))%N.

Definition lower_char (c : ascii) : ascii :=
  if is_upper c then ascii_of_N (code c + 32) else c.

(** [s.toLowerCase()] *)
Fixpoint toLowerCase (s : string) : string :=
  match s with
  | EmptyString => EmptyString
  | String c r => String (lower_char c) (toLowerCase r)
  end.

(** [s.slice(0, n)]: the first [n] code units, all of [s] when it is
    shorter. *)
Definition slice0 (n : nat) (s : string) : string := substring 0 n s.

(** [s.replace(/\s+/g, '-')].  The flag [in_run] tells that the previous
    character belonged to the whitespace run being replaced: the greedy
    [+] takes the whole run, which yields one hyphen. *)
Fixpoint replace_ws_from (in_run : bool) (s : string) : string :=
  match s with
  | EmptyString => EmptyString
  | String c r =>
      if is_space c
      then (if in_run then replace_ws_from true r
            else String "-" (replace_ws_from true r))
      else String c (replace_ws_from false r)
  end.

Definition replace_ws (s : string) : string := replace_ws_from false s.

(** Every character of [s] satisfies the boolean test [p]. *)
Fixpoint all_chars (p : ascii -> bool) (s : string) : bool :=
  match s with
  | EmptyString => true
  | String c r => p c && all_chars p r
  end.

End Str.

(** Constants of the script. *)
Definition MAX_CHANNEL_NAME_LENGTH : nat := 21.

(** The first statement of createChannel, getChannel and archiveChannel:
    [channelName.slice(0, MAX_CHANNEL_NAME_LENGTH).replace(/\s+/g, '-').toLowerCase()] *)
Definition canonicalize (channelName : string) : string :=
  Str.toLowerCase (Str.replace_ws (Str.slice0 MAX_CHANNEL_NAME_LENGTH channelName)).

(* ================================================================== *)
(** ** Names of 16-bit code units *)
(* ================================================================== *)

Module Wide.

(** The code units of an 8-bit string. *)
Definition units (s : string) : list N :=
  map Str.code (list_ascii_of_string s).

(** The code units the module gives the behaviour of: the Latin-1 range,
    U+0130 (capital I with dot above) and U+0307 (combining dot above). *)
Definition modelled (u : N) : bool :=
  ((u <? 256) || (u =? 304) || (u =? 775))%N.

(** The class [\s] on these code units. *)
Definition is_space (u : N) : bool :=
  ((9 <=? u) && (u <=? 13) || (u =? 32) || (u =? 160))%N.

Definition is_upper (u : N) : bool :=
  ((65 <=? u) && (u <=? 90)
   || (192 <=? u) && (u <=? 222) && negb (u =? 215))%N.

(** The lower-case form of one code unit.  U+0130 becomes the two code
    units U+0069 U+0307, in every locale-independent case table; U+0307
    has no lower-case form of its own. *)
Definition lower_unit (u : N) : list N :=
  if (u =? 304)%N then [105; 775]%N
  else if is_upper u then [(u + 32)%N]
  else [u].

(** [s.toLowerCase()] *)
Definition toLowerCase (s : list N) : list N := flat_map lower_unit s.

(** [s.slice(0, n)] *)
Definition slice0 (n : nat) (s : list N) : list N := firstn n s.

(** [s.replace(/\s+/g, '-')] *)
Fixpoint replace_ws_from (in_run : bool) (s : list N) : list N :=
  match s with
  | [] => []
  | u :: r =>
      if is_space u
      then (if in_run then replace_ws_from true r
            else 45%N :: replace_ws_from true r)
      else u :: replace_ws_from false r
  end.

Definition replace_ws (s : list N) : list N := replace_ws_from false s.

(** [channelName.slice(0, MAX_CHANNEL_NAME_LENGTH).replace(/\s+/g, '-').toLowerCase()],
    when the code units that are kept are among the modelled ones. *)
Definition canonicalize (channelName : list N) : option (list N) :=
  let kept := slice0 MAX_CHANNEL_NAME_LENGTH channelName in
  if forallb modelled kept
  then Some (toLowerCase (replace_ws kept))
  else None.

(** Twenty-one capital I with dot above, and their lower-case form. *)
Definition dotted_capitals : list N := repeat 304%N 21.
Definition dotted_smalls : list N := concat (repeat [105; 775]%N 21).

End Wide.

(* ================================================================== *)
(** ** JavaScript values *)
(* ================================================================== *)

(** What [JSON.parse] produces, and what the script builds from it.
    Numbers are integers here: the script never computes with them, it
    only tests them for truthiness and prints them. *)
#[warnings="-register-all"]
Inductive value : Type :=
| VUndefined
| VNull
| VBool (b : bool)
| VNumber (n : Z)
| VString (s : string)
| VArray (elems : list value)
| VObject (fields : list (string * value)).

(** An object: its own properties in insertion order. *)
Abbreviation object := (list (string * value)).

(** Exceptions a call of the script can end with. *)
Inductive Error : Type :=
| TypeError        (* property of undefined or null, call of a non-function *)
| SyntaxError      (* JSON.parse of a body that is not JSON *)
| TransportError   (* the host's write has no answer to give *)
| LoopBudget.      (* the model's loop counter ran out; never happens *)

Inductive Outcome (A : Type) : Type :=
| Returned (a : A)
| Thrown (e : Error).
Arguments Returned {A} a.
Arguments Thrown {A} e.

Module Js.

(** [!!v] *)
Definition truthy (v : value) : bool :=
  match v with
  | VUndefined | VNull => false
  | VBool b => b
  | VNumber n => negb (n =? 0)%Z
  | VString s => negb (s =? "")
  | VArray _ | VObject _ => true
  end.

(** The decimal form of an integer, which is how the script prints the
    integers a double holds exactly. *)
Definition string_of_Z (n : Z) : string :=
  NilZero.string_of_int (Z.to_int n).

(** [sep]-separated concatenation, [Array.prototype.join]. *)
Fixpoint join (sep : string) (l : list string) : string :=
  match l with
  | [] => ""
  | [x] => x
  | x :: r => x +:+ sep +:+ join sep r
  end.

(** ToString, the coercion applied by [+] with a string operand and by
    [encodeURIComponent].  An array prints its elements joined by commas,
    with nothing for [null] and [undefined]; an object prints as
    [[object Object]].  This is the script's coercion for objects that
    inherit [toString], as the records of the listings do; an object with a
    [toString] property of its own makes the script throw instead. *)
Fixpoint to_string (v : value) : string :=
  match v with
  | VUndefined => "undefined"
  | VNull => "null"
  | VBool true => "true"
  | VBool false => "false"
  | VNumber n => string_of_Z n
  | VString s => s
  | VArray l =>
      join ","
        ((fix elems (l : list value) : list string :=
            match l with
            | [] => []
            | x :: r =>
                match x with
                | VUndefined | VNull => ""
                | _ => to_string x
                end :: elems r
            end) l)
  | VObject _ => "[object Object]"
  end.

(** [o[k]] on an object's own properties. *)
Fixpoint get_field (o : object) (k : string) : value :=
  match o with
  | [] => VUndefined
  | (k', v) :: r => if k' =? k then v else get_field r k
  end.

Fixpoint has_field (o : object) (k : string) : bool :=
  match o with
  | [] => false
  | (k', _) :: r => (k' =? k) || has_field r k
  end.

(** [o[k] = v]: an existing property keeps its place, a new one goes to
    the end. *)
Fixpoint set_field (o : object) (k : string) (v : value) : object :=
  match o with
  | [] => [(k, v)]
  | (k', v') :: r =>
      if k' =? k then (k', v) :: r else (k', v') :: set_field r k v
  end.

(** [v.k] for the property names the script reads ([ok], [error], [id],
    [name], ...): a TypeError on [undefined] and [null], the own property
    of an object, and [undefined] on arrays and primitives, which have no
    property of these names. *)
Definition prop (v : value) (k : string) : Outcome value :=
  match v with
  | VUndefined | VNull => Thrown TypeError
  | VObject o => Returned (get_field o k)
  | _ => Returned VUndefined
  end.

(** [v.toLowerCase()]: only strings have the method. *)
Definition call_toLowerCase (v : value) : Outcome string :=
  match v with
  | VString s => Returned (Str.toLowerCase s)
  | _ => Thrown TypeError
  end.

(** [v == lit] for a string literal [lit] that is not the text of a
    number (the script compares with 'name_taken', 'already_in_channel'
    and 'xmatters').  A string is compared as it is, an array or object
    through its primitive form; a number or boolean is compared with
    ToNumber(lit), which is NaN, and [null], [undefined] equal no
    string. *)
Definition loose_eq_lit (v : value) (lit : string) : bool :=
  match v with
  | VString s => s =? lit
  | VArray _ | VObject _ => to_string v =? lit
  | _ => false
  end.

(** The values [v[i]] that [for (var i in v)] visits, in order. *)
Definition for_in (v : value) : list value :=
  match v with
  | VArray l => l
  | VObject o => map snd o
  | VString s => map (fun c => VString (String c "")) (list_ascii_of_string s)
  | _ => []
  end.

Definition hex_digit (upper : bool) (n : N) : ascii :=
  if (n <? 10)%N then ascii_of_N (48 + n)
  else ascii_of_N ((if upper then 55 else 87) + n).

Definition hex2 (upper : bool) (n : N) : string :=
  String (hex_digit upper (n / 16)) (String (hex_digit upper (n mod 16)) "").

Definition backslash : string := String (ascii_of_N 92) EmptyString.
Definition dquote : string := String (ascii_of_N 34) EmptyString.

(** A string literal of JSON: quote and backslash escaped by a backslash,
    control characters as their short escape (b, t, n, f, r) or as
    [u00xx]. *)
Definition escape_char (c : ascii) : string :=
  let n := Str.code c in
  if (n =? 34)%N then backslash +:+ dquote
  else if (n =? 92)%N then backslash +:+ backslash
  else if (n =? 8)%N then backslash +:+ "b"
  else if (n =? 9)%N then backslash +:+ "t"
  else if (n =? 10)%N then backslash +:+ "n"
  else if (n =? 12)%N then backslash +:+ "f"
  else if (n =? 13)%N then backslash +:+ "r"
  else if (n <? 32)%N then backslash +:+ "u00" +:+ hex2 false n
  else String c "".

Fixpoint escape (s : string) : string :=
  match s with
  | EmptyString => ""
  | String c r => escape_char c +:+ escape r
  end.

Definition quote (s : string) : string :=
  dquote +:+ escape s +:+ dquote.

(** [JSON.stringify(v)]; [None] is its [undefined] result.  In an array
    [undefined] prints as [null]; in an object a property whose value is
    [undefined] is left out. *)
Fixpoint stringify (v : value) : option string :=
  match v with
  | VUndefined => None
  | VNull => Some "null"
  | VBool true => Some "true"
  | VBool false => Some "false"
  | VNumber n => Some (string_of_Z n)
  | VString s => Some (quote s)
  | VArray l =>
      Some ("[" +:+
        join ","
          ((fix elems (l : list value) : list string :=
              match l with
              | [] => []
              | x :: r =>
                  match stringify x with
                  | Some t => t
                  | None => "null"
                  end :: elems r
              end) l) +:+ "]")
  | VObject o =>
      Some ("{" +:+
        join ","
          ((fix members (o : object) : list string :=
              match o with
              | [] => []
              | (k, x) :: r =>
                  match stringify x with
                  | Some t => (quote k +:+ ":" +:+ t) :: members r
                  | None => members r
                  end
              end) o) +:+ "}")
  end.

Definition JSON_stringify (v : value) : value :=
  match stringify v with
  | Some s => VString s
  | None => VUndefined
  end.

(** Characters [encodeURIComponent] leaves alone: letters, digits and
    [- _ . ! ~ * ' ( )]. *)
Definition unreserved (c : ascii) : bool :=
  let n := Str.code c in
  ((65 <=? n) && (n <=? 90) || (97 <=? n) && (n <=? 122)
   || (48 <=? n) && (n <=? 57)
   || (n =? 45) || (n =? 95) || (n =? 46) || (n =? 33) || (n =? 126)
   || (n =? 42) || (n =? 39) || (n =? 40) || (n =? 41))%N.

(** The other characters become the [%XX] of their UTF-8 bytes: one byte
    below 128, two bytes for the rest of Latin-1. *)
Definition encode_char (c : ascii) : string :=
  let n := Str.code c in
  if unreserved c then String c ""
  else if (n <? 128)%N then "%" +:+ hex2 true n
  else "%" +:+ hex2 true (192 + n / 64) +:+ "%" +:+ hex2 true (128 + n mod 64).

Fixpoint encode (s : string) : string :=
  match s with
  | EmptyString => ""
  | String c r => encode_char c +:+ encode r
  end.

(** [encodeURIComponent(v)]: the argument is first converted to a string,
    as in [to_string]. *)
Definition encodeURIComponent (v : value) : string := encode (to_string v).

End Js.

(* ================================================================== *)
(** ** The host: transport, constants, console, the caller's objects *)
(* ================================================================== *)

(** The argument of [http.request] together with what [write] was given. *)
Record Request : Type := mkRequest {
  endpoint : string;
  method : string;
  path : string;
  headers : list (string * string);
  written : option object
}.

(** What [write] returns.  The body is kept in parsed form: [Some v] when
    [JSON.parse(body)] is [v], [None] when the text is not JSON. *)
Record Response : Type := mkResponse {
  status : Z;
  body : option value
}.

(** Address of an object owned by the caller of the library. *)
Abbreviation loc := nat.

Record World : Type := mkWorld {
  constants : gmap string string;   (* the host's [constants] table *)
  pending : list Response;          (* answers of the transport, next first *)
  issued : list Request;            (* requests written so far, oldest first *)
  console : list string;            (* lines given to [console.log] *)
  store : gmap loc object           (* objects the caller holds references to *)
}.

(** A function of the script: it runs in a world and ends by returning or
    throwing, in a world that may have changed. *)
Definition M (A : Type) : Type := World -> Outcome A * World.

Definition ret {A} (a : A) : M A := fun w => (Returned a, w).

Definition throw {A} (e : Error) : M A := fun w => (Thrown e, w).

Definition bind {A B} (m : M A) (k : A -> M B) : M B :=
  fun w =>
    match m w with
    | (Returned a, w') => k a w'
    | (Thrown e, w') => (Thrown e, w')
    end.

Definition obind {A B} (o : Outcome A) (k : A -> Outcome B) : Outcome B :=
  match o with
  | Returned a => k a
  | Thrown e => Thrown e
  end.

Definition lift {A} (o : Outcome A) : M A := fun w => (o, w).

Notation "'let!' x ':=' e 'in' k" := (bind e (fun x => k))
  (at level 10, x pattern, e at level 100, k at level 200).
Notation "'let?' x ':=' e 'in' k" := (obind e (fun x => k))
  (at level 10, x pattern, e at level 100, k at level 200).

Module Host.

(** [constants[k]] *)
Definition constant (k : string) : M value :=
  fun w =>
    (Returned match constants w !! k with
              | Some s => VString s
              | None => VUndefined
              end, w).

(** The world after one more line on the console. *)
Definition logged (line : string) (w : World) : World :=
  mkWorld (constants w) (pending w) (issued w) (console w ++ [line]) (store w).

(** The world after the request [req] went out and took the next answer. *)
Definition sent (req : Request) (w : World) : World :=
  mkWorld (constants w) (tl (pending w)) (issued w ++ [req]) (console w) (store w).

(** [console.log(line)] *)
Definition console_log (line : string) : M unit :=
  fun w => (Returned tt, logged line w).

(** [http.request(req).write(...)]: the request goes out, the transport
    gives its next answer, and throws when it has none. *)
Definition http_write (req : Request) : M Response :=
  fun w =>
    match pending w with
    | [] => (Thrown TransportError, sent req w)
    | r :: _ => (Returned r, sent req w)
    end.

(** [JSON.parse(response.body)] *)
Definition JSON_parse (r : Response) : Outcome value :=
  match body r with
  | Some v => Returned v
  | None => Thrown SyntaxError
  end.

(** Reading the object behind a reference; a reference to nothing stands
    for an argument that is not an object. *)
Definition obj_read (l : loc) : M object :=
  fun w =>
    match store w !! l with
    | Some o => (Returned o, w)
    | None => (Thrown TypeError, w)
    end.

(** [payload[k] = v] on the caller's object. *)
Definition obj_set (l : loc) (k : string) (v : value) : M unit :=
  fun w =>
    match store w !! l with
    | Some o =>
        (Returned tt,
         mkWorld (constants w) (pending w) (issued w) (console w)
                 (<[l := Js.set_field o k v]> (store w)))
    | None => (Thrown TypeError, w)
    end.

End Host.

Import Js Host.

Definition is_null (v : value) : bool :=
  match v with VNull => true | _ => false end.

Definition is_undefined (v : value) : bool :=
  match v with VUndefined => true | _ => false end.

(* ================================================================== *)
(** ** The script *)
(* ================================================================== *)

(** [jsonToQueryString(json)] *)
Definition jsonToQueryString (json : object) : string :=
  "?" +:+
  join "&"
    (map (fun '(key, v) =>
            encodeURIComponent (VString key) +:+ "=" +:+ encodeURIComponent v)
         json).

(** The body of the [for (var i in slackBody.channels)] loop of getChannel,
    over the values the loop visits: the first element whose lower-cased
    name equals the lower-cased target is assigned and the loop is left. *)
Fixpoint scan_channels (channelName : string) (elems : list value)
    (channelBody : value) : Outcome value :=
  match elems with
  | [] => Returned channelBody
  | e :: rest =>
      let? name := prop e "name" in
      let? lowered := call_toLowerCase name in
      if lowered =? Str.toLowerCase channelName
      then Returned e
      else scan_channels channelName rest channelBody
  end.

(** [var limit = 0] in getChannel and getUserInfo. *)
Definition limit : value := VNumber 0.

(** The two [parms +=] statements at the head of both pagination loops. *)
Definition next_parms (parms : string) (cursor : value) : string :=
  (parms +:+ (if truthy limit then "&limit=" +:+ to_string limit else ""))
  +:+ (if truthy cursor then "&cursor=" +:+ to_string cursor else "").

(** The [while (page)] loop of getChannel.  Its variables are the
    arguments; [fuel] bounds the number of iterations. *)
Fixpoint getChannel_loop (fuel : nat) (channelName parms : string)
    (cursor channelBody : value) : M value :=
  match fuel with
  | O => throw LoopBudget
  | S fuel =>
      let parms := next_parms parms cursor in
      let! token := constant "Slack Token" in
      let! slackResponse :=
        http_write
          {| endpoint := "Slack"; method := "GET";
             path := "/api/channels.list?token=" +:+ to_string token +:+ parms;
             headers := []; written := None |} in
      let! slackBody := lift (JSON_parse slackResponse) in
      let! ok := lift (prop slackBody "ok") in
      if negb (truthy ok) then
        let! error := lift (prop slackBody "error") in
        let! _ := console_log ("Error getting Channel list: " +:+ to_string error) in
        ret channelBody
      else
        let! channels := lift (prop slackBody "channels") in
        let! channelBody :=
          lift (scan_channels channelName (for_in channels) channelBody) in
        let! response_metadata := lift (prop slackBody "response_metadata") in
        if is_null channelBody && negb (is_undefined response_metadata) then
          let! next_cursor := lift (prop response_metadata "next_cursor") in
          if truthy next_cursor then
            let! _ := console_log ("Next Cursor  " +:+ to_string next_cursor) in
            getChannel_loop fuel channelName parms next_cursor channelBody
          else
            let! _ :=
              console_log "No need for next cursor, completing channel search" in
            ret channelBody
        else
          let! _ :=
            console_log "No need for next cursor, completing channel search" in
          ret channelBody
  end.

(** Every iteration takes one answer from the transport, so one more than
    the number of answers left is enough. *)
Definition budget (w : World) : nat := S (length (pending w)).

Definition getChannel (channelName : string) : M value :=
  fun w =>
    let channelName := canonicalize channelName in
    getChannel_loop (budget w) channelName "" VUndefined VNull w.

Definition createChannel (channelName : string) : M value :=
  let channelName := canonicalize channelName in
  let! token := constant "Slack Token" in
  let! slackResponse :=
    http_write
      {| endpoint := "Slack"; method := "POST";
         path := "/api/channels.create?token=" +:+ to_string token
                 +:+ "&name=" +:+ channelName;
         headers := []; written := None |} in
  let! slackBody := lift (JSON_parse slackResponse) in
  let! _ :=
    console_log ("Slack Create Channel Response: "
                 +:+ to_string (JSON_stringify slackBody)) in
  let! error := lift (prop slackBody "error") in
  if loose_eq_lit error "name_taken" then
    let! _ :=
      console_log ("Channel " +:+ dquote +:+ channelName +:+ dquote
                   +:+ " already exists. Getting info.") in
    getChannel channelName
  else
    lift (prop slackBody "channel").

Definition getTeam : M value :=
  let! token := constant "Slack Token" in
  let! slackResponse :=
    http_write
      {| endpoint := "Slack"; method := "GET";
         path := "/team.info?token=" +:+ to_string token;
         headers := []; written := None |} in
  let! body := lift (JSON_parse slackResponse) in
  let! ok := lift (prop body "ok") in
  if truthy ok then lift (prop body "team") else ret VNull.

Definition archiveChannel (channelName : string) : M value :=
  let channelName := canonicalize channelName in
  let! channel := getChannel channelName in
  let! token := constant "Slack Token" in
  let! id := lift (prop channel "id") in
  let! slackResponse :=
    http_write
      {| endpoint := "Slack"; method := "GET";
         path := "/api/channels.archive?token=" +:+ to_string token
                 +:+ "&channel=" +:+ to_string id;
         headers := []; written := None |} in
  let! slackBody := lift (JSON_parse slackResponse) in
  ret VUndefined.

Definition getRoomHistory (channelName : string) (count latest oldest : value)
    : M value :=
  let! channel := getChannel channelName in
  if is_null channel then
    let! _ :=
      console_log ("Channel " +:+ dquote +:+ channelName +:+ dquote
                   +:+ " not found.") in
    ret VNull
  else
    let! id := lift (prop channel "id") in
    let parms := "" +:+ "&channel=" +:+ to_string id in
    let parms := parms +:+ (if truthy count then "&count=" +:+ to_string count else "") in
    let parms := parms +:+ (if truthy latest then "&latest=" +:+ to_string latest else "") in
    let parms := parms +:+ (if truthy oldest then "&oldest=" +:+ to_string oldest else "") in
    let! token := constant "Slack Token" in
    let! slackResponse :=
      http_write
        {| endpoint := "Slack"; method := "GET";
           path := "/api/channels.history?token=" +:+ to_string token +:+ parms;
           headers := []; written := None |} in
    let! slackBody := lift (JSON_parse slackResponse) in
    let! ok := lift (prop slackBody "ok") in
    if negb (truthy ok) then
      let! error := lift (prop slackBody "error") in
      let! _ :=
        console_log ("Error getting Channel history: " +:+ to_string error) in
      ret VNull
    else
      lift (prop slackBody "messages").

(** The body of the [for (var i in slackBody.members)] loop of getUserInfo:
    the display name is tried first, the handle only when it differs. *)
Fixpoint scan_members (username : string) (elems : list value)
    (slackMember : value) : Outcome value :=
  match elems with
  | [] => Returned slackMember
  | e :: rest =>
      let? profile := prop e "profile" in
      let? display_name := prop profile "display_name" in
      let? lowered := call_toLowerCase display_name in
      if lowered =? Str.toLowerCase username
      then Returned e
      else
        let? name := prop e "name" in
        let? lowered := call_toLowerCase name in
        if lowered =? Str.toLowerCase username
        then Returned e
        else scan_members username rest slackMember
  end.

(** The [while (page)] loop of getUserInfo. *)
Fixpoint getUserInfo_loop (fuel : nat) (username parms : string)
    (cursor slackMember : value) : M value :=
  match fuel with
  | O => throw LoopBudget
  | S fuel =>
      let parms := next_parms parms cursor in
      let! token := constant "Slack Token" in
      let! slackResponse :=
        http_write
          {| endpoint := "Slack"; method := "GET";
             path := "/api/users.list?token=" +:+ to_string token +:+ parms;
             headers := []; written := None |} in
      let! slackBody := lift (JSON_parse slackResponse) in
      let! ok := lift (prop slackBody "ok") in
      if negb (truthy ok) then
        let! _ :=
          console_log ("Error getting user info " +:+ dquote
                       +:+ to_string (JSON_stringify slackBody) +:+ dquote) in
        ret slackMember
      else
        let! members := lift (prop slackBody "members") in
        let! slackMember :=
          lift (scan_members username (for_in members) slackMember) in
        let! response_metadata := lift (prop slackBody "response_metadata") in
        let! next_cursor := lift (prop response_metadata "next_cursor") in
        if truthy next_cursor then
          let! _ := console_log ("Next Cursor: " +:+ to_string cursor) in
          getUserInfo_loop fuel username parms next_cursor slackMember
        else
          let! _ := console_log "No next cursor found returning null" in
          ret slackMember
  end.

Definition getUserInfo (username : string) : M value :=
  fun w => getUserInfo_loop (budget w) username "" VUndefined VNull w.

(** inviteToChannel returns the transport's answer as it is, or [null]
    ([None]). *)
Definition inviteToChannel (userName channelName : string)
    (userId channelId : value) : M (option Response) :=
  let! channelId :=
    if negb (truthy channelId) then
      let! channel := getChannel channelName in
      if negb (is_null channel)
      then let! channel_name := lift (prop channel "channel_name") in
           ret (Some channel_name)
      else ret None
    else ret (Some channelId) in
  match channelId with
  | None => ret None
  | Some channelId =>
      let! userId :=
        if negb (truthy userId) then
          let! userId := getUserInfo userName in
          if is_null userId then ret None else ret (Some userId)
        else ret (Some userId) in
      match userId with
      | None => ret None
      | Some userId =>
          let! token := constant "Slack Token" in
          let! slackResponse :=
            http_write
              {| endpoint := "Slack"; method := "POST";
                 path := "/api/channels.invite?token=" +:+ to_string token
                         +:+ "&channel=" +:+ to_string channelId
                         +:+ "&user=" +:+ to_string userId;
                 headers := [("Content-Type", "application/json")];
                 written := None |} in
          ret (Some slackResponse)
      end
  end.

Definition postMessageWithFields (text : string) (channelName slackUser : value)
    : M value :=
  let payload : object := [] in
  let! id := lift (prop channelName "id") in
  let payload := set_field payload "channel" id in
  let! payload :=
    if truthy slackUser then
      let! uid := lift (prop slackUser "id") in
      ret (set_field payload "text" (VString ("<@" +:+ to_string uid +:+ ">")))
    else ret payload in
  let payload :=
    if truthy (VString text)
    then set_field payload "text"
           (VString (to_string (get_field payload "text") +:+ text))
    else payload in
  let! token := constant "Slack Token" in
  let payload := set_field payload "token" token in
  let qs := jsonToQueryString payload in
  let! slackResponse :=
    http_write
      {| endpoint := "Slack"; method := "POST";
         path := "/api/chat.postMessage" +:+ qs;
         headers := []; written := Some payload |} in
  let! slackBody := lift (JSON_parse slackResponse) in
  let! ok := lift (prop slackBody "ok") in
  if negb (truthy ok) then
    let! _ := console_log "Error posting message!" in
    ret VNull
  else ret slackBody.

Definition channelInvite (slackUser slackChannel : value) : M value :=
  let payload : object := [] in
  let! cid := lift (prop slackChannel "id") in
  let payload := set_field payload "channel" cid in
  let! uid := lift (prop slackUser "id") in
  let payload := set_field payload "user" uid in
  let! token := constant "Slack Token" in
  let payload := set_field payload "token" token in
  let qs := jsonToQueryString payload in
  let! slackResponse :=
    http_write
      {| endpoint := "Slack"; method := "POST";
         path := "/api/channels.invite" +:+ qs;
         headers := []; written := Some payload |} in
  let! slackBody := lift (JSON_parse slackResponse) in
  let! ok := lift (prop slackBody "ok") in
  if negb (truthy ok) then
    let! error := lift (prop slackBody "error") in
    let! first :=
      if loose_eq_lit error "already_in_channel" then
        let! name := lift (prop slackUser "name") in
        let! lowered := lift (call_toLowerCase name) in
        ret (negb (lowered =? "xmatters"))
      else ret false in
    if first then
      postMessageWithFields " already in channel" slackChannel slackUser
    else
      let! name := lift (prop slackUser "name") in
      let! lowered := lift (call_toLowerCase name) in
      if lowered =? "xmatters" then
        let! _ :=
          console_log "Disregarding xMatters user already exists in channel" in
        ret VNull
      else
        let! _ := console_log "Error posting message" in
        ret VNull
  else ret slackBody.

(** postMessage works on the object the caller passed: [payload] is the
    reference to it. *)
Definition postMessage (payload : loc) : M value :=
  let! token := constant "Slack Token" in
  let! _ := obj_set payload "token" token in
  let! json := obj_read payload in
  let attachments := get_field json "attachments" in
  let! _ :=
    if truthy attachments
    then obj_set payload "attachments" (JSON_stringify attachments)
    else ret tt in
  let! json := obj_read payload in
  let qs := jsonToQueryString json in
  let! slackResponse :=
    http_write
      {| endpoint := "Slack"; method := "POST";
         path := "/chat.postMessage" +:+ qs;
         headers := []; written := Some json |} in
  let! slackBody := lift (JSON_parse slackResponse) in
  let! ok := lift (prop slackBody "ok") in
  if negb (truthy ok) then
    let! _ := console_log "Error posting message!" in
    ret VNull
  else ret slackBody.

(* ================================================================== *)
(** ** Vocabulary for the statements *)
(* ================================================================== *)

(** Whether the last character of [s] is whitespace; [b] when [s] is
    empty. *)
Fixpoint ends_in_space (b : bool) (s : string) : bool :=
  match s with
  | EmptyString => b
  | String c r => ends_in_space (Str.is_space c) r
  end.

Definition starts_with_space (s : string) : bool :=
  match s with
  | EmptyString => false
  | String c _ => Str.is_space c
  end.

(** [b.k] when the access does not throw. *)
Definition field (b : value) (k : string) : value :=
  match prop b k with
  | Returned x => x
  | Thrown _ => VUndefined
  end.

(** The envelope [b] has a truthy [ok]. *)
Definition page_ok (b : value) : bool :=
  match prop b "ok" with
  | Returned ok => truthy ok
  | Thrown _ => false
  end.

(** [b.response_metadata.next_cursor] *)
Definition page_cursor (b : value) : Outcome value :=
  let? response_metadata := prop b "response_metadata" in
  prop response_metadata "next_cursor".

(** An integer that a JSON number holds exactly and that the script prints
    digit by digit. *)
Definition safe_integer (n : Z) : bool :=
  (Z.abs n <=? 9007199254740991)%Z.

(** Every number inside [v] is a safe integer. *)
Fixpoint exact (v : value) : bool :=
  match v with
  | VNumber n => safe_integer n
  | VArray l =>
      (fix all (l : list value) : bool :=
         match l with
         | [] => true
         | x :: r => exact x && all r
         end) l
  | VObject o =>
      (fix all (o : object) : bool :=
         match o with
         | [] => true
         | (_, x) :: r => exact x && all r
         end) o
  | _ => true
  end.

(** The values on which the script's conversions to a string (in [+], in
    [==] and in [encodeURIComponent]) cannot throw and print what
    [to_string] prints: [undefined], [null], booleans, strings and safe
    integers.  An object with a [toString] property of its own makes these
    conversions throw a TypeError in the script; the statements below are
    about primitive values wherever a value is printed or compared. *)
Definition primitive (v : value) : bool :=
  match v with
  | VArray _ | VObject _ => false
  | _ => exact v
  end.

(** Every property of the object [o] holds a primitive value. *)
Definition primitive_fields (o : object) : bool :=
  forallb (fun kv => primitive (snd kv)) o.

(** A page that makes a lookup go on: the envelope is ok, the scan of its
    array [what] leaves the result [null], and it carries the cursor [c],
    a truthy primitive value. *)
Definition advances (scan : list value -> value -> Outcome value)
    (what : string) (r : Response) (c : value) : Prop :=
  exists b,
    body r = Some b /\ page_ok b = true
    /\ scan (for_in (field b what)) VNull = Returned VNull
    /\ page_cursor b = Returned c /\ truthy c = true
    /\ primitive c = true.

(** A page on which the scan of the array [what] finds the record [e]. *)
Definition matches (scan : list value -> value -> Outcome value)
    (what : string) (r : Response) (e : value) : Prop :=
  exists b,
    body r = Some b /\ page_ok b = true
    /\ scan (for_in (field b what)) VNull = Returned e
    /\ is_null e = false.

(** A failure envelope: a body whose [ok] is falsy and whose [error] is a
    primitive value (an error code, or nothing). *)
Definition fails (r : Response) : Prop :=
  exists b ok,
    body r = Some b /\ prop b "ok" = Returned ok /\ truthy ok = false
    /\ primitive (field b "error") = true.

(** The value of [constants["Slack Token"]] in a world. *)
Definition token_of (w : World) : value :=
  match constants w !! "Slack Token" with
  | Some s => VString s
  | None => VUndefined
  end.

(** The listing request of a pagination loop, for the path prefix [api]
    ([/api/channels.list?token=] or [/api/users.list?token=]). *)
Definition list_request (api : string) (token : value) (parms : string)
    : Request :=
  {| endpoint := "Slack"; method := "GET";
     path := api +:+ to_string token +:+ parms;
     headers := []; written := None |}.

(** The requests of a scan that starts with [parms] and [cursor] and is sent
    on by the cursors [cursors], one after the other: each request carries
    the parameters accumulated so far. *)
Fixpoint list_requests (api : string) (token : value) (parms : string)
    (cursor : value) (cursors : list value) : list Request :=
  list_request api token (next_parms parms cursor)
  :: match cursors with
     | [] => []
     | c :: rest => list_requests api token (next_parms parms cursor) c rest
     end.

(** What the statements below say of the world a scan ends in: the answers
    [post] are left, the requests [reqs] were added, nothing else of the
    host changed but the console. *)
Definition scanned (w w' : World) (post : list Response) (reqs : list Request)
    : Prop :=
  pending w' = post /\ issued w' = (issued w ++ reqs)%list
  /\ constants w' = constants w /\ store w' = store w.

(** A page on which the scan finds the record [e] and which still carries
    the cursor [c], a truthy primitive value. *)
Definition matches_on (scan : list value -> value -> Outcome value)
    (what : string) (r : Response) (e c : value) : Prop :=
  exists b,
    body r = Some b /\ page_ok b = true
    /\ scan (for_in (field b what)) VNull = Returned e
    /\ is_null e = false
    /\ page_cursor b = Returned c /\ truthy c = true
    /\ primitive c = true.

(** A page on which the scan finds the record [e] and whose cursor [c] is
    falsy. *)
Definition matches_at_end (scan : list value -> value -> Outcome value)
    (what : string) (r : Response) (e : value) : Prop :=
  exists b c,
    body r = Some b /\ page_ok b = true
    /\ scan (for_in (field b what)) VNull = Returned e
    /\ is_null e = false
    /\ page_cursor b = Returned c /\ truthy c = false.

(* ================================================================== *)
(** ** Sample data for the scenarios *)
(* ================================================================== *)

Module Sample.

(** A host with the token configured, the given answers ready, nothing sent
    or printed yet, and no object of the caller. *)
Definition world (answers : list Response) : World :=
  mkWorld {[ "Slack Token" := "xoxb-1" ]} answers [] [] ∅.

(** A page of a listing: [what] is [channels] or [members], [cursor] the
    next cursor (empty on the last page). *)
Definition page (what : string) (elems : list value) (cursor : string)
    : Response :=
  mkResponse 200
    (Some (VObject [("ok", VBool true); (what, VArray elems);
                    ("response_metadata",
                     VObject [("next_cursor", VString cursor)])])).

(** A failure envelope. *)
Definition failure (code : string) : Response :=
  mkResponse 200 (Some (VObject [("ok", VBool false); ("error", VString code)])).

(** A success envelope with nothing else in it. *)
Definition success : Response :=
  mkResponse 200 (Some (VObject [("ok", VBool true)])).

Definition channel (id name : string) : value :=
  VObject [("id", VString id); ("name", VString name)].

Definition member (id name display_name : string) : value :=
  VObject [("id", VString id); ("name", VString name);
           ("profile", VObject [("display_name", VString display_name)])].

Definition general : value := channel "C1" "general".
Definition bob : value := member "U1" "bob" "Bobby".
Definition bot : value := member "U9" "xMatters" "xMatters Bot".

(** What the scenarios look at: the outcome, the answers left, the paths
    of the requests sent. *)
Definition observe {A} (run : Outcome A * World)
    : Outcome A * list Response * list string :=
  (fst run, pending (snd run), map path (issued (snd run))).

(** A host as [world], in which the caller holds the object [o] at
    address 0. *)
Definition holding (o : object) (answers : list Response) : World :=
  mkWorld {[ "Slack Token" := "xoxb-1" ]} answers [] [] {[ 0 := o ]}.

End Sample.

(** The request of getRoomHistory for the channel record [channel]. *)
Definition history_request (token channel count latest oldest : value)
    : Request :=
  {| endpoint := "Slack"; method := "GET";
     path := "/api/channels.history?token=" +:+ to_string token
             +:+ ((("" +:+ "&channel=" +:+ to_string (field channel "id"))
                   +:+ (if truthy count then "&count=" +:+ to_string count else ""))
                  +:+ (if truthy latest then "&latest=" +:+ to_string latest else ""))
             +:+ (if truthy oldest then "&oldest=" +:+ to_string oldest else "");
     headers := []; written := None |}.

(** The request of createChannel for the canonical name [name]. *)
Definition create_request (token : value) (name : string) : Request :=
  {| endpoint := "Slack"; method := "POST";
     path := "/api/channels.create?token=" +:+ to_string token
             +:+ "&name=" +:+ name;
     headers := []; written := None |}.

(** The request of channelInvite for the identifiers [cid] and [uid]. *)
Definition invite_request (token cid uid : value) : Request :=
  let payload := [("channel", cid); ("user", uid); ("token", token)] in
  {| endpoint := "Slack"; method := "POST";
     path := "/api/channels.invite" +:+ jsonToQueryString payload;
     headers := []; written := Some payload |}.

(** The request of postMessageWithFields for a user with identifier [uid]
    and a non-empty [text]: the message is a mention of the user followed
    by the text. *)
Definition mention_request (token cid uid : value) (text : string) : Request :=
  let payload :=
    [("channel", cid);
     ("text", VString (("<@" +:+ to_string uid +:+ ">") +:+ text));
     ("token", token)] in
  {| endpoint := "Slack"; method := "POST";
     path := "/api/chat.postMessage" +:+ jsonToQueryString payload;
     headers := []; written := Some payload |}.

(** The message channelInvite posts for a user who is in the channel
    already. *)
Definition membership_notice (token cid uid : value) : Request :=
  mention_request token cid uid " already in channel".

(** The request of inviteToChannel with what it holds as channel and user
    when it builds the path. *)
Definition basic_invite_request (token channelId userId : value) : Request :=
  {| endpoint := "Slack"; method := "POST";
     path := "/api/channels.invite?token=" +:+ to_string token
             +:+ "&channel=" +:+ to_string channelId
             +:+ "&user=" +:+ to_string userId;
     headers := [("Content-Type", "application/json")];
     written := None |}.

(** The caller's payload after postMessage has worked on it: the token is
    written, and a truthy [attachments] is replaced by its JSON text. *)
Definition posted (token : value) (o : object) : object :=
  let o1 := set_field o "token" token in
  let attachments := get_field o1 "attachments" in
  if truthy attachments
  then set_field o1 "attachments" (JSON_stringify attachments)
  else o1.

(* ================================================================== *)
(** ** Further vocabulary: what a lookup may return, how a scan ends *)
(* ================================================================== *)

(** [x] is an object whose property [k] is a string equal to [t] when both
    are lower-cased. *)
Definition has_text (k t : string) (x : value) : bool :=
  match x with
  | VObject o =>
      match get_field o k with
      | VString s => Str.toLowerCase s =? Str.toLowerCase t
      | _ => false
      end
  | _ => false
  end.

(** [x] is an object whose property [k] is a string different from [t]
    when both are lower-cased. *)
Definition has_other_text (k t : string) (x : value) : bool :=
  match x with
  | VObject o =>
      match get_field o k with
      | VString s => negb (Str.toLowerCase s =? Str.toLowerCase t)
      | _ => false
      end
  | _ => false
  end.

(** A member record that the user lookup takes for [u]: its display name
    or its handle is [u] up to case. *)
Definition is_member_named (u : string) (x : value) : bool :=
  has_text "display_name" u (field x "profile") || has_text "name" u x.

(** A member record that the user lookup passes over: display name and
    handle are strings, and neither is [u] up to case. *)
Definition is_other_member (u : string) (x : value) : bool :=
  has_other_text "display_name" u (field x "profile")
  && has_other_text "name" u x.

(** A page that ends the channel lookup without a result: the envelope is
    ok, the scan leaves [null], and there is no metadata or its cursor is
    falsy. *)
Definition exhausts_channels (t : string) (r : Response) : Prop :=
  exists b,
    body r = Some b /\ page_ok b = true
    /\ scan_channels t (for_in (field b "channels")) VNull = Returned VNull
    /\ (field b "response_metadata" = VUndefined
        \/ exists c, page_cursor b = Returned c /\ truthy c = false).

(** A page that ends the user lookup without a result: the envelope is ok,
    the scan leaves [null], and the metadata has a falsy cursor. *)
Definition exhausts_members (u : string) (r : Response) : Prop :=
  exists b c,
    body r = Some b /\ page_ok b = true
    /\ scan_members u (for_in (field b "members")) VNull = Returned VNull
    /\ page_cursor b = Returned c /\ truthy c = false.

(** The cursor parameters a pagination loop has put into [parms] after it
    was sent on by the cursors [cursors]. *)
Fixpoint cursor_parms (cursors : list value) : string :=
  match cursors with
  | [] => ""
  | c :: rest => ("&cursor=" +:+ to_string c) +:+ cursor_parms rest
  end.

(** The listing requests of a scan sent on by [cursors], written out: the
    request after [k] cursors carries all [k] of them. *)
Definition paged_requests (api : string) (token : value)
    (cursors : list value) : list Request :=
  map (fun k => list_request api token (cursor_parms (firstn k cursors)))
      (seq 0 (S (length cursors))).

(** The request of postMessage for the payload as it stands when it is
    written. *)
Definition post_request (json : object) : Request :=
  {| endpoint := "Slack"; method := "POST";
     path := "/chat.postMessage" +:+ jsonToQueryString json;
     headers := []; written := Some json |}.

(** The request of postMessageWithFields for the payload it has built. *)
Definition message_request (payload : object) : Request :=
  {| endpoint := "Slack"; method := "POST";
     path := "/api/chat.postMessage" +:+ jsonToQueryString payload;
     headers := []; written := Some payload |}.

(** The request of getTeam. *)
Definition team_request (token : value) : Request :=
  {| endpoint := "Slack"; method := "GET";
     path := "/team.info?token=" +:+ to_string token;
     headers := []; written := None |}.

(** The request of archiveChannel for the channel record [channel]. *)
Definition archive_request (token channel : value) : Request :=
  {| endpoint := "Slack"; method := "GET";
     path := "/api/channels.archive?token=" +:+ to_string token
             +:+ "&channel=" +:+ to_string (field channel "id");
     headers := []; written := None |}.

(** Number of occurrences of the character [c] in [s]. *)
Fixpoint count_char (c : ascii) (s : string) : nat :=
  match s with
  | EmptyString => 0
  | String d r => (if Ascii.eqb d c then 1 else 0) + count_char c r
  end.

(** What [encodeURIComponent] can produce: the characters it leaves alone
    and the percent sign of its escapes (whose hexadecimal digits are among
    the former). *)
Definition encoded_char (c : ascii) : bool :=
  unreserved c || Ascii.eqb c "%".

(** The characters of a query string: those of encoded text and the three
    separators. *)
Definition query_char (c : ascii) : bool :=
  encoded_char c || Ascii.eqb c "?" || Ascii.eqb c "=" || Ascii.eqb c "&".

(* ================================================================== *)
(** ** Canonical channel names *)
(* ================================================================== *)

Section Canonical.

Import Str.

Local Ltac by_cases_on c :=
  destruct c as [[] [] [] [] [] [] [] []]; vm_compute; reflexivity.

Lemma lower_char_not_upper c : is_upper (lower_char c) = false.
Proof. by_cases_on c. Qed.

Lemma lower_char_space c : is_space (lower_char c) = is_space c.
Proof. by_cases_on c. Qed.

Lemma lower_char_fixed c : is_upper c = false -> lower_char c = c.
Proof. unfold lower_char. now intros ->. Qed.

Lemma lower_char_idem c : lower_char (lower_char c) = lower_char c.
Proof. apply lower_char_fixed, lower_char_not_upper. Qed.

Lemma toLowerCase_length s : String.length (toLowerCase s) = String.length s.
Proof. induction s as [|c r IH]; simpl; [reflexivity | now rewrite IH]. Qed.

Lemma toLowerCase_idem s : toLowerCase (toLowerCase s) = toLowerCase s.
Proof.
  induction s as [|c r IH]; simpl; [reflexivity|].
  now rewrite lower_char_idem, IH.
Qed.

Lemma toLowerCase_app s t :
  toLowerCase (s +:+ t) = toLowerCase s +:+ toLowerCase t.
Proof. induction s as [|c r IH]; simpl; [reflexivity | now rewrite IH]. Qed.

Lemma toLowerCase_no_upper s :
  all_chars (fun c => negb (is_upper c)) (toLowerCase s) = true.
Proof.
  induction s as [|c r IH]; simpl; [reflexivity|].
  now rewrite lower_char_not_upper, IH.
Qed.

Lemma toLowerCase_keeps_no_space s :
  all_chars (fun c => negb (is_space c)) s = true ->
  all_chars (fun c => negb (is_space c)) (toLowerCase s) = true.
Proof.
  induction s as [|c r IH]; simpl; [reflexivity|].
  rewrite lower_char_space. intros [-> Hr]%andb_prop. simpl. now apply IH.
Qed.

Lemma slice0_nil n : slice0 n "" = "".
Proof. now destruct n. Qed.

Lemma slice0_cons n c s : slice0 (S n) (String c s) = String c (slice0 n s).
Proof. reflexivity. Qed.

Lemma slice0_length n s : String.length (slice0 n s) <= n.
Proof.
  revert s. induction n as [|n IH]; intros [|c s].
  - simpl. lia.
  - simpl. lia.
  - rewrite slice0_nil. simpl. lia.
  - rewrite slice0_cons. simpl. specialize (IH s). lia.
Qed.

Lemma slice0_short n s : String.length s <= n -> slice0 n s = s.
Proof.
  revert s. induction n as [|n IH]; intros [|c s] H.
  - reflexivity.
  - simpl in H. lia.
  - apply slice0_nil.
  - rewrite slice0_cons, IH; [reflexivity | simpl in H; lia].
Qed.

Lemma replace_ws_from_length b s :
  String.length (replace_ws_from b s) <= String.length s.
Proof.
  revert b. induction s as [|c r IH]; intros b; simpl; [lia|].
  destruct (is_space c).
  - destruct b; simpl; specialize (IH true); lia.
  - simpl. specialize (IH false). lia.
Qed.

Lemma replace_ws_from_no_space b s :
  all_chars (fun c => negb (is_space c)) (replace_ws_from b s) = true.
Proof.
  revert b. induction s as [|c r IH]; intros b; simpl; [reflexivity|].
  destruct (is_space c) eqn:Hc.
  - destruct b; simpl; apply IH.
  - simpl. rewrite Hc. simpl. apply IH.
Qed.

Lemma replace_ws_from_fixed b s :
  all_chars (fun c => negb (is_space c)) s = true -> replace_ws_from b s = s.
Proof.
  revert b. induction s as [|c r IH]; intros b; simpl; [reflexivity|].
  intros [Hc Hr]%andb_prop. apply negb_true_iff in Hc. rewrite Hc.
  now rewrite IH.
Qed.

(** Replacement goes through a concatenation, remembering whether the
    left part ended inside a run. *)
Lemma replace_ws_from_app b s t :
  replace_ws_from b (s +:+ t)
  = replace_ws_from b s +:+ replace_ws_from (ends_in_space b s) t.
Proof.
  revert b. induction s as [|c r IH]; intros b; simpl; [reflexivity|].
  destruct (is_space c).
  - destruct b; simpl; now rewrite IH.
  - simpl. now rewrite IH.
Qed.

(** A run of whitespace gives one hyphen, or nothing when it continues a
    run already replaced. *)
Lemma replace_ws_from_run b ws :
  ws <> "" -> all_chars is_space ws = true ->
  replace_ws_from b ws = (if b then "" else "-")
  /\ ends_in_space b ws = true.
Proof.
  revert b. induction ws as [|c r IH]; intros b Hne; simpl; [congruence|].
  intros [Hc Hr]%andb_prop. rewrite Hc.
  destruct r as [|c' r'].
  - simpl. now destruct b.
  - destruct (IH true) as [E1 E2]; [congruence | assumption |].
    rewrite E1. split; [now destruct b | ].
    simpl in E2 |- *. exact E2.
Qed.

(** After a run, a part that does not start with whitespace is treated
    as from the start. *)
Lemma replace_ws_from_fresh b s :
  starts_with_space s = false -> replace_ws_from b s = replace_ws_from false s.
Proof.
  destruct s as [|c r]; simpl; [reflexivity|]. now intros ->.
Qed.

End Canonical.

Section CanonicalName.

Import Str.

Lemma canonicalize_length N : String.length (canonicalize N) <= 21.
Proof.
  unfold canonicalize. rewrite toLowerCase_length.
  etransitivity; [apply replace_ws_from_length | apply slice0_length].
Qed.

Lemma canonicalize_no_space N :
  all_chars (fun c => negb (is_space c)) (canonicalize N) = true.
Proof. apply toLowerCase_keeps_no_space, replace_ws_from_no_space. Qed.

(** On names of Latin-1 code units canonicalization is idempotent: the
    statement that opens createChannel, getChannel and archiveChannel,
    applied to its own result, gives that result back. *)
Lemma canonicalize_idempotent (N : string) :
  canonicalize (canonicalize N) = canonicalize N.
Proof.
  pose proof (canonicalize_length N) as Hlen.
  pose proof (canonicalize_no_space N) as Hsp.
  unfold canonicalize at 1.
  rewrite slice0_short by exact Hlen.
  unfold replace_ws. rewrite replace_ws_from_fixed by exact Hsp.
  unfold canonicalize. apply toLowerCase_idem.
Qed.

(** For a name of Latin-1 code units the canonical form has at most 21
    characters, no upper-case letter and no whitespace character; and it is
    the lower-cased truncation in which a maximal run of whitespace (one
    that the text before does not end in and the text after does not start
    with) has become a single hyphen, while text without whitespace is
    kept. *)
Lemma canonicalize_shape (N : string) :
  String.length (canonicalize N) <= 21
  /\ all_chars (fun c => negb (is_upper c)) (canonicalize N) = true
  /\ all_chars (fun c => negb (is_space c)) (canonicalize N) = true
  /\ (forall a ws b : string,
        slice0 MAX_CHANNEL_NAME_LENGTH N = a +:+ ws +:+ b ->
        ws <> "" -> all_chars is_space ws = true ->
        ends_in_space false a = false -> starts_with_space b = false ->
        canonicalize N
        = toLowerCase (replace_ws a) +:+ "-" +:+ toLowerCase (replace_ws b))
  /\ (all_chars (fun c => negb (is_space c))
        (slice0 MAX_CHANNEL_NAME_LENGTH N) = true ->
      canonicalize N = toLowerCase (slice0 MAX_CHANNEL_NAME_LENGTH N)).
Proof.
  split; [apply canonicalize_length|].
  split; [apply toLowerCase_no_upper|].
  split; [apply canonicalize_no_space|].
  split.
  - intros a ws b Hsplit Hne Hws Ha Hb.
    unfold canonicalize, replace_ws. rewrite Hsplit.
    rewrite !replace_ws_from_app, Ha.
    destruct (replace_ws_from_run false ws Hne Hws) as [-> ->].
    rewrite (replace_ws_from_fresh true b Hb).
    now rewrite !toLowerCase_app.
  - intros Hsp. unfold canonicalize, replace_ws.
    now rewrite replace_ws_from_fixed.
Qed.

(** The lemma at the name "My Incident 123456789012345": the run after "My"
    is maximal, and the truncation cuts the digits after the 21st
    character. *)
Lemma canonicalize_shape_witness :
  String.length (canonicalize "My Incident 123456789012345") <= 21
  /\ canonicalize "My Incident 123456789012345"
     = "my" +:+ "-" +:+ "incident-123456789".
Proof.
  destruct (canonicalize_shape "My Incident 123456789012345")
    as (Hlen & _ & _ & Hrun & _).
  split; [exact Hlen|].
  apply (Hrun "My" " " "Incident 123456789"); try reflexivity.
  discriminate.
Defined.

End CanonicalName.

(* ================================================================== *)
(** ** Canonical names over 16-bit code units *)
(* ================================================================== *)

Section WideNames.

Lemma code_below_256 c : (Str.code c <? 256)%N = true.
Proof.
  unfold Str.code. apply N.ltb_lt.
  destruct c as [[] [] [] [] [] [] [] []]; vm_compute; reflexivity.
Qed.

Lemma units_modelled s : forallb Wide.modelled (Wide.units s) = true.
Proof.
  unfold Wide.units.
  induction s as [|c r IH]; [reflexivity|].
  cbn [list_ascii_of_string map forallb]. rewrite IH.
  unfold Wide.modelled. now rewrite code_below_256.
Qed.

Lemma units_slice0 n s :
  Wide.slice0 n (Wide.units s) = Wide.units (Str.slice0 n s).
Proof.
  unfold Wide.slice0, Wide.units, Str.slice0.
  revert s. induction n as [|n IH]; intros [|c r]; try reflexivity.
  cbn [substring list_ascii_of_string map firstn]. now rewrite IH.
Qed.

Lemma units_is_space c : Wide.is_space (Str.code c) = Str.is_space c.
Proof. reflexivity. Qed.

Lemma units_replace_ws_from b s :
  Wide.replace_ws_from b (Wide.units s)
  = Wide.units (Str.replace_ws_from b s).
Proof.
  unfold Wide.units. revert b.
  induction s as [|c r IH]; intros b; [reflexivity|].
  cbn [list_ascii_of_string map Wide.replace_ws_from Str.replace_ws_from].
  rewrite units_is_space.
  destruct (Str.is_space c), b;
    cbn [list_ascii_of_string map]; now rewrite IH.
Qed.

Lemma units_lower_unit c :
  Wide.lower_unit (Str.code c) = [Str.code (Str.lower_char c)].
Proof.
  destruct c as [[] [] [] [] [] [] [] []]; vm_compute; reflexivity.
Qed.

Lemma units_toLowerCase s :
  Wide.toLowerCase (Wide.units s) = Wide.units (Str.toLowerCase s).
Proof.
  unfold Wide.toLowerCase, Wide.units.
  induction s as [|c r IH]; [reflexivity|].
  cbn [list_ascii_of_string map flat_map Str.toLowerCase].
  now rewrite units_lower_unit, IH.
Qed.

(** On the Latin-1 range the two embeddings of the canonicalizing
    statement agree. *)
Lemma canonicalize_units (N : string) :
  Wide.canonicalize (Wide.units N) = Some (Wide.units (canonicalize N)).
Proof.
  unfold Wide.canonicalize, canonicalize.
  cbv zeta. rewrite units_slice0, units_modelled.
  unfold Wide.replace_ws, Str.replace_ws.
  now rewrite units_replace_ws_from, units_toLowerCase.
Qed.

(** C5.  The script cuts the name to 21 code units before it lower-cases
    it.  A name of 21 capital I with dot above (U+0130) passes the cut
    whole and has no whitespace; lower-casing turns each into the two code
    units U+0069 U+0307, so the canonical form has 42 code units, twice the
    limit of 21. *)
Theorem canonicalize_exceeds_limit_on_dotted_capitals :
  Wide.canonicalize Wide.dotted_capitals = Some Wide.dotted_smalls
  /\ length Wide.dotted_capitals = MAX_CHANNEL_NAME_LENGTH
  /\ length Wide.dotted_smalls = 42
  /\ MAX_CHANNEL_NAME_LENGTH < length Wide.dotted_smalls.
Proof.
  split; [vm_compute; reflexivity|].
  split; [reflexivity|].
  split; [reflexivity|].
  vm_compute. lia.
Qed.

(** C4.  The canonical form of 21 capital I with dot above has 42 code
    units; the statement applied to it cuts it to its first 21 code units,
    which lower-casing leaves as they are.  So the second application
    gives another name than the first. *)
Theorem canonicalize_not_idempotent_on_dotted_capitals :
  Wide.canonicalize Wide.dotted_capitals = Some Wide.dotted_smalls
  /\ Wide.canonicalize Wide.dotted_smalls
     = Some (firstn 21 Wide.dotted_smalls)
  /\ firstn 21 Wide.dotted_smalls <> Wide.dotted_smalls.
Proof.
  split; [vm_compute; reflexivity|].
  split; [vm_compute; reflexivity|].
  intros H. apply (f_equal (@length N)) in H. vm_compute in H.
  discriminate H.
Qed.

End WideNames.

(* ================================================================== *)
(** ** Running the script: elementary steps *)
(* ================================================================== *)

Lemma http_write_answer req w r rest :
  pending w = r :: rest -> http_write req w = (Returned r, sent req w).
Proof. unfold http_write. now intros ->. Qed.

Lemma prop_field b k x k' :
  prop b k = Returned x -> prop b k' = Returned (field b k').
Proof. unfold field. destruct b; simpl; congruence. Qed.

Lemma page_ok_prop b :
  page_ok b = true -> exists ok, prop b "ok" = Returned ok /\ truthy ok = true.
Proof. unfold page_ok. destruct (prop b "ok"); [eauto | discriminate]. Qed.

Lemma page_cursor_metadata b c :
  page_cursor b = Returned c ->
  is_undefined (field b "response_metadata") = false
  /\ prop (field b "response_metadata") "next_cursor" = Returned c.
Proof.
  unfold page_cursor, field.
  destruct (prop b "response_metadata") as [m|]; [|discriminate].
  cbn [obind]. intros H. split; [|exact H].
  destruct m; try reflexivity; discriminate.
Qed.

Lemma list_requests_length api tok parms cursor cursors :
  length (list_requests api tok parms cursor cursors) = S (length cursors).
Proof.
  revert parms cursor.
  induction cursors as [|c cs IH]; intros; simpl; [reflexivity|].
  now rewrite IH.
Qed.

(* ================================================================== *)
(** ** Channel lookup, page by page *)
(* ================================================================== *)

Section ChannelPages.

Variable t : string.   (* the target, as the loop receives it *)

Let api := "/api/channels.list?token=".
Let scan := scan_channels t.

(** One iteration on an answer whose envelope is ok. *)
Lemma getChannel_loop_step fuel parms cursor cb w r rest b :
  pending w = r :: rest -> body r = Some b -> page_ok b = true ->
  getChannel_loop (S fuel) t parms cursor cb w =
  let w1 := sent (list_request api (token_of w) (next_parms parms cursor)) w in
  let done := "No need for next cursor, completing channel search" in
  match scan (for_in (field b "channels")) cb with
  | Thrown e => (Thrown e, w1)
  | Returned cb' =>
      if is_null cb' && negb (is_undefined (field b "response_metadata")) then
        match prop (field b "response_metadata") "next_cursor" with
        | Thrown e => (Thrown e, w1)
        | Returned next =>
            if truthy next
            then getChannel_loop fuel t (next_parms parms cursor) next cb'
                   (logged ("Next Cursor  " +:+ to_string next) w1)
            else (Returned cb', logged done w1)
        end
      else (Returned cb', logged done w1)
  end.
Proof.
  intros Hp Hb [ok [Hok Ht]]%page_ok_prop.
  cbn [getChannel_loop]. unfold bind at 1. unfold constant at 1.
  fold (token_of w). unfold bind at 1.
  erewrite http_write_answer by exact Hp.
  unfold JSON_parse. rewrite Hb.
  cbn [bind lift]. rewrite Hok, Ht. cbn [negb].
  rewrite (prop_field _ _ _ "channels" Hok). cbn [bind lift].
  subst scan.
  destruct (scan_channels t (for_in (field b "channels")) cb) as [cb'|e];
    [|reflexivity].
  rewrite (prop_field _ _ _ "response_metadata" Hok). cbn [bind lift].
  destruct (is_null cb' && negb (is_undefined (field b "response_metadata")));
    [|reflexivity].
  cbn [bind lift].
  destruct (prop (field b "response_metadata") "next_cursor") as [next|e];
    [|reflexivity].
  destruct (truthy next); reflexivity.
Qed.

(** One iteration on a failure envelope: the loop is left with the result
    it had. *)
Lemma getChannel_loop_stop fuel parms cursor cb w r rest :
  pending w = r :: rest -> fails r ->
  exists line,
    getChannel_loop (S fuel) t parms cursor cb w =
    (Returned cb,
     logged line
       (sent (list_request api (token_of w) (next_parms parms cursor)) w)).
Proof.
  intros Hp (b & ok & Hb & Hok & Ht & _).
  cbn [getChannel_loop]. unfold bind at 1. unfold constant at 1.
  fold (token_of w). unfold bind at 1.
  erewrite http_write_answer by exact Hp.
  unfold JSON_parse. rewrite Hb.
  cbn [bind lift]. rewrite Hok, Ht. cbn [negb].
  rewrite (prop_field _ _ _ "error" Hok). cbn [bind lift console_log ret].
  eexists. reflexivity.
Qed.

(** One iteration on a page that sends the scan on. *)
Lemma getChannel_loop_advance fuel parms cursor w p rest c :
  pending w = p :: rest -> advances scan "channels" p c ->
  getChannel_loop (S fuel) t parms cursor VNull w =
  getChannel_loop fuel t (next_parms parms cursor) c VNull
    (logged ("Next Cursor  " +:+ to_string c)
       (sent (list_request api (token_of w) (next_parms parms cursor)) w)).
Proof.
  intros Hp (b & Hb & Hok & Hscan & Hcur & Htc & _).
  rewrite (getChannel_loop_step _ _ _ _ _ _ _ _ Hp Hb Hok). cbv zeta.
  rewrite Hscan. cbn [is_null andb].
  destruct (page_cursor_metadata _ _ Hcur) as [-> ->].
  cbn [negb]. now rewrite Htc.
Qed.

Lemma scanned_one w line req p post :
  pending w = p :: post -> scanned w (logged line (sent req w)) post [req].
Proof. intros Hp. unfold scanned. cbn. rewrite Hp. auto. Qed.

Lemma scanned_more w line req p rest w' post reqs :
  pending w = p :: rest ->
  scanned (logged line (sent req w)) w' post reqs ->
  scanned w w' post (req :: reqs).
Proof.
  intros Hp (H1 & H2 & H3 & H4). unfold scanned.
  cbn in H2, H3, H4. rewrite H2, <- app_assoc. auto.
Qed.

(** The target is first found on the page after [pre]: the loop returns the
    record found there and has asked for exactly those pages. *)
Lemma getChannel_loop_found pre :
  forall cursors fuel parms cursor w r post e,
    Forall2 (advances scan "channels") pre cursors ->
    matches scan "channels" r e ->
    pending w = (pre ++ r :: post)%list -> length pre < fuel ->
    exists w',
      getChannel_loop fuel t parms cursor VNull w = (Returned e, w')
      /\ scanned w w' post (list_requests api (token_of w) parms cursor cursors).
Proof.
  induction pre as [|p pre IH];
    intros cursors fuel parms cursor w r post e Hpre Hr Hp Hfuel;
    (destruct fuel as [|fuel]; [simpl in Hfuel; lia|]); simpl in Hp.
  - inversion Hpre; subst.
    destruct Hr as (b & Hb & Hok & Hscan & Hnn).
    rewrite (getChannel_loop_step _ _ _ _ _ _ _ _ Hp Hb Hok). cbv zeta.
    rewrite Hscan, Hnn. cbn [andb].
    eexists. split; [reflexivity|]. eapply scanned_one, Hp.
  - inversion Hpre as [|? c ? cs Hadv Hrest]; subst.
    rewrite (getChannel_loop_advance _ _ _ _ _ _ _ Hp Hadv).
    edestruct (IH cs fuel (next_parms parms cursor) c) as (w' & Hrun & Hsc);
      [exact Hrest | exact Hr | | | ].
    3: { exists w'. split; [exact Hrun|]. eapply scanned_more; [exact Hp|].
         exact Hsc. }
    + cbn. rewrite Hp. reflexivity.
    + simpl in Hfuel. lia.
Qed.

(** A failure envelope on the page after [pre]: the loop returns [null] and
    has asked for exactly those pages. *)
Lemma getChannel_loop_failed pre :
  forall cursors fuel parms cursor w r post,
    Forall2 (advances scan "channels") pre cursors ->
    fails r ->
    pending w = (pre ++ r :: post)%list -> length pre < fuel ->
    exists w',
      getChannel_loop fuel t parms cursor VNull w = (Returned VNull, w')
      /\ scanned w w' post (list_requests api (token_of w) parms cursor cursors).
Proof.
  induction pre as [|p pre IH];
    intros cursors fuel parms cursor w r post Hpre Hr Hp Hfuel;
    (destruct fuel as [|fuel]; [simpl in Hfuel; lia|]); simpl in Hp.
  - inversion Hpre; subst.
    destruct (getChannel_loop_stop fuel parms cursor VNull w r post Hp Hr)
      as [line ->].
    eexists. split; [reflexivity|]. eapply scanned_one, Hp.
  - inversion Hpre as [|? c ? cs Hadv Hrest]; subst.
    rewrite (getChannel_loop_advance _ _ _ _ _ _ _ Hp Hadv).
    edestruct (IH cs fuel (next_parms parms cursor) c) as (w' & Hrun & Hsc);
      [exact Hrest | exact Hr | | | ].
    3: { exists w'. split; [exact Hrun|]. eapply scanned_more; [exact Hp|].
         exact Hsc. }
    + cbn. rewrite Hp. reflexivity.
    + simpl in Hfuel. lia.
Qed.

End ChannelPages.

Lemma getChannel_found N w pre cursors r post e :
  Forall2 (advances (scan_channels (canonicalize N)) "channels") pre cursors ->
  matches (scan_channels (canonicalize N)) "channels" r e ->
  pending w = (pre ++ r :: post)%list ->
  exists w',
    getChannel N w = (Returned e, w')
    /\ scanned w w' post
         (list_requests "/api/channels.list?token=" (token_of w) ""
            VUndefined cursors).
Proof.
  intros Hpre Hr Hp. unfold getChannel.
  eapply getChannel_loop_found; eauto.
  unfold budget. rewrite Hp, length_app. simpl. lia.
Qed.

Lemma getChannel_failed N w pre cursors r post :
  Forall2 (advances (scan_channels (canonicalize N)) "channels") pre cursors ->
  fails r ->
  pending w = (pre ++ r :: post)%list ->
  exists w',
    getChannel N w = (Returned VNull, w')
    /\ scanned w w' post
         (list_requests "/api/channels.list?token=" (token_of w) ""
            VUndefined cursors).
Proof.
  intros Hpre Hr Hp. unfold getChannel.
  eapply getChannel_loop_failed; eauto.
  unfold budget. rewrite Hp, length_app. simpl. lia.
Qed.

(** In numbers: a match on page k costs k requests. *)
Lemma getChannel_found_count N w pre cursors r post e :
  Forall2 (advances (scan_channels (canonicalize N)) "channels") pre cursors ->
  matches (scan_channels (canonicalize N)) "channels" r e ->
  pending w = (pre ++ r :: post)%list ->
  exists w',
    getChannel N w = (Returned e, w')
    /\ pending w' = post
    /\ length (issued w') = length (issued w) + S (length pre).
Proof.
  intros Hpre Hr Hp.
  destruct (getChannel_found N w pre cursors r post e Hpre Hr Hp)
    as (w' & Hrun & Hpend & Hiss & _).
  exists w'. split; [exact Hrun|]. split; [exact Hpend|].
  rewrite Hiss, length_app, list_requests_length.
  now rewrite (Forall2_length _ _ _ Hpre).
Qed.

(* ================================================================== *)
(** ** User lookup, page by page *)
(* ================================================================== *)

Section UserPages.

Variable u : string.   (* the name looked for *)

Let api := "/api/users.list?token=".
Let scan := scan_members u.

(** One iteration on an answer whose envelope is ok.  The result of the
    scan plays no part in the decision to go on. *)
Lemma getUserInfo_loop_step fuel parms cursor sm w r rest b :
  pending w = r :: rest -> body r = Some b -> page_ok b = true ->
  getUserInfo_loop (S fuel) u parms cursor sm w =
  let w1 := sent (list_request api (token_of w) (next_parms parms cursor)) w in
  match scan (for_in (field b "members")) sm with
  | Thrown e => (Thrown e, w1)
  | Returned sm' =>
      match page_cursor b with
      | Thrown e => (Thrown e, w1)
      | Returned next =>
          if truthy next
          then getUserInfo_loop fuel u (next_parms parms cursor) next sm'
                 (logged ("Next Cursor: " +:+ to_string cursor) w1)
          else (Returned sm', logged "No next cursor found returning null" w1)
      end
  end.
Proof.
  intros Hp Hb [ok [Hok Ht]]%page_ok_prop.
  cbn [getUserInfo_loop]. unfold bind at 1. unfold constant at 1.
  fold (token_of w). unfold bind at 1.
  erewrite http_write_answer by exact Hp.
  unfold JSON_parse. rewrite Hb.
  cbn [bind lift]. rewrite Hok, Ht. cbn [negb].
  rewrite (prop_field _ _ _ "members" Hok). cbn [bind lift].
  subst scan.
  destruct (scan_members u (for_in (field b "members")) sm) as [sm'|e];
    [|reflexivity].
  unfold page_cursor.
  destruct (prop b "response_metadata") as [m|e]; [|reflexivity].
  cbn [bind lift obind].
  destruct (prop m "next_cursor") as [next|e]; [|reflexivity].
  destruct (truthy next); reflexivity.
Qed.

(** One iteration on a failure envelope: the loop is left with the result
    it had, which is the record of an earlier page when there was one. *)
Lemma getUserInfo_loop_stop fuel parms cursor sm w r rest :
  pending w = r :: rest -> fails r ->
  exists line,
    getUserInfo_loop (S fuel) u parms cursor sm w =
    (Returned sm,
     logged line
       (sent (list_request api (token_of w) (next_parms parms cursor)) w)).
Proof.
  intros Hp (b & ok & Hb & Hok & Ht & _).
  cbn [getUserInfo_loop]. unfold bind at 1. unfold constant at 1.
  fold (token_of w). unfold bind at 1.
  erewrite http_write_answer by exact Hp.
  unfold JSON_parse. rewrite Hb.
  cbn [bind lift]. rewrite Hok, Ht. cbn [negb bind console_log ret].
  eexists. reflexivity.
Qed.

Lemma getUserInfo_loop_advance fuel parms cursor w p rest c :
  pending w = p :: rest -> advances scan "members" p c ->
  getUserInfo_loop (S fuel) u parms cursor VNull w =
  getUserInfo_loop fuel u (next_parms parms cursor) c VNull
    (logged ("Next Cursor: " +:+ to_string cursor)
       (sent (list_request api (token_of w) (next_parms parms cursor)) w)).
Proof.
  intros Hp (b & Hb & Hok & Hscan & Hcur & Htc & _).
  rewrite (getUserInfo_loop_step _ _ _ _ _ _ _ _ Hp Hb Hok). cbv zeta.
  now rewrite Hscan, Hcur, Htc.
Qed.

(** The target is first found on the page after [pre], and that page is the
    last one: the loop returns the record and has asked for exactly those
    pages. *)
Lemma getUserInfo_loop_found_at_end pre :
  forall cursors fuel parms cursor w r post e,
    Forall2 (advances scan "members") pre cursors ->
    matches_at_end scan "members" r e ->
    pending w = (pre ++ r :: post)%list -> length pre < fuel ->
    exists w',
      getUserInfo_loop fuel u parms cursor VNull w = (Returned e, w')
      /\ scanned w w' post (list_requests api (token_of w) parms cursor cursors).
Proof.
  induction pre as [|p pre IH];
    intros cursors fuel parms cursor w r post e Hpre Hr Hp Hfuel;
    (destruct fuel as [|fuel]; [simpl in Hfuel; lia|]); simpl in Hp.
  - inversion Hpre; subst.
    destruct Hr as (b & c & Hb & Hok & Hscan & Hnn & Hcur & Htc).
    rewrite (getUserInfo_loop_step _ _ _ _ _ _ _ _ Hp Hb Hok). cbv zeta.
    rewrite Hscan, Hcur, Htc.
    eexists. split; [reflexivity|]. eapply scanned_one, Hp.
  - inversion Hpre as [|? c ? cs Hadv Hrest]; subst.
    rewrite (getUserInfo_loop_advance _ _ _ _ _ _ _ Hp Hadv).
    edestruct (IH cs fuel (next_parms parms cursor) c) as (w' & Hrun & Hsc);
      [exact Hrest | exact Hr | | | ].
    3: { exists w'. split; [exact Hrun|]. eapply scanned_more; [exact Hp|].
         exact Hsc. }
    + cbn. rewrite Hp. reflexivity.
    + simpl in Hfuel. lia.
Qed.

(** Whatever the answers are, a run of the loop only adds requests. *)
Lemma getUserInfo_loop_issued fuel :
  forall parms cursor sm w,
    exists reqs,
      issued (snd (getUserInfo_loop fuel u parms cursor sm w))
      = (issued w ++ reqs)%list.
Proof.
  induction fuel as [|fuel IH]; intros parms cursor sm w.
  - exists []. cbn. now rewrite app_nil_r.
  - cbn [getUserInfo_loop]. unfold bind at 1. unfold constant at 1.
    unfold bind at 1. unfold http_write.
    set (req := mkRequest _ _ _ _ _).
    assert (Hone : forall line, issued (logged line (sent req w))
                                = (issued w ++ [req])%list) by reflexivity.
    destruct (pending w) as [|r rest] eqn:Hp; [exists [req]; reflexivity|].
    unfold JSON_parse. destruct (body r) as [b|]; [|exists [req]; reflexivity].
    cbn [bind lift].
    destruct (prop b "ok") as [ok|]; [|exists [req]; reflexivity].
    destruct (truthy ok); cbn [negb bind lift console_log ret];
      [|exists [req]; reflexivity].
    destruct (prop b "members") as [ms|]; [|exists [req]; reflexivity].
    cbn [bind lift].
    destruct (scan_members u (for_in ms) sm) as [sm'|];
      [|exists [req]; reflexivity].
    destruct (prop b "response_metadata") as [m|]; [|exists [req]; reflexivity].
    cbn [bind lift].
    destruct (prop m "next_cursor") as [next|]; [|exists [req]; reflexivity].
    destruct (truthy next); [|exists [req]; reflexivity].
    cbn [bind console_log].
    destruct (IH (next_parms parms cursor) next sm'
                (logged ("Next Cursor: " +:+ to_string cursor) (sent req w)))
      as [reqs ->].
    exists (req :: reqs). rewrite Hone, <- app_assoc. reflexivity.
Qed.

(** The first thing an iteration does is to ask for a page. *)
Lemma getUserInfo_loop_first_request fuel parms cursor sm w :
  exists reqs,
    issued (snd (getUserInfo_loop (S fuel) u parms cursor sm w))
    = (issued w
       ++ list_request api (token_of w) (next_parms parms cursor) :: reqs)%list.
Proof.
  cbn [getUserInfo_loop]. unfold bind at 1. unfold constant at 1.
  fold (token_of w). unfold bind at 1. unfold http_write.
  fold (list_request api (token_of w) (next_parms parms cursor)).
  set (req := list_request _ _ _).
  destruct (pending w) as [|r rest] eqn:Hp; [exists []; reflexivity|].
  unfold JSON_parse. destruct (body r) as [b|]; [|exists []; reflexivity].
  cbn [bind lift].
  destruct (prop b "ok") as [ok|]; [|exists []; reflexivity].
  destruct (truthy ok); cbn [negb bind lift console_log ret];
    [|exists []; reflexivity].
  destruct (prop b "members") as [ms|]; [|exists []; reflexivity].
  cbn [bind lift].
  destruct (scan_members u (for_in ms) sm) as [sm'|];
    [|exists []; reflexivity].
  destruct (prop b "response_metadata") as [m|]; [|exists []; reflexivity].
  cbn [bind lift].
  destruct (prop m "next_cursor") as [next|]; [|exists []; reflexivity].
  destruct (truthy next); [|exists []; reflexivity].
  cbn [bind console_log].
  match goal with
  | |- context [getUserInfo_loop fuel u ?p ?c ?s ?w0] =>
      destruct (getUserInfo_loop_issued fuel p c s w0) as [reqs ->]
  end.
  exists reqs. cbn. rewrite <- app_assoc. reflexivity.
Qed.

(** A match on a page that carries a cursor does not end the scan: the
    page after it is asked for. *)
Lemma getUserInfo_loop_past_match fuel parms cursor w r post e c :
  matches_on scan "members" r e c ->
  pending w = r :: post ->
  exists reqs,
    issued (snd (getUserInfo_loop (S (S fuel)) u parms cursor VNull w))
    = (issued w ++ list_requests api (token_of w) parms cursor [c] ++ reqs)%list.
Proof.
  intros (b & Hb & Hok & Hscan & Hnn & Hcur & Htc & _) Hp.
  rewrite (getUserInfo_loop_step _ _ _ _ _ _ _ _ Hp Hb Hok). cbv zeta.
  rewrite Hscan, Hcur, Htc.
  destruct (getUserInfo_loop_first_request fuel (next_parms parms cursor) c e
              (logged ("Next Cursor: " +:+ to_string cursor)
                 (sent (list_request api (token_of w) (next_parms parms cursor)) w)))
    as [reqs ->].
  exists reqs. cbn. rewrite <- app_assoc. reflexivity.
Qed.

End UserPages.

Lemma getUserInfo_found_at_end u w pre cursors r post e :
  Forall2 (advances (scan_members u) "members") pre cursors ->
  matches_at_end (scan_members u) "members" r e ->
  pending w = (pre ++ r :: post)%list ->
  exists w',
    getUserInfo u w = (Returned e, w')
    /\ scanned w w' post
         (list_requests "/api/users.list?token=" (token_of w) ""
            VUndefined cursors).
Proof.
  intros Hpre Hr Hp. unfold getUserInfo.
  eapply getUserInfo_loop_found_at_end; eauto.
  unfold budget. rewrite Hp, length_app. simpl. lia.
Qed.

(** A match on the first page, which carries a cursor: the second page is
    asked for all the same. *)
Lemma getUserInfo_past_match u w r post e c :
  matches_on (scan_members u) "members" r e c ->
  pending w = r :: post ->
  exists reqs,
    issued (snd (getUserInfo u w))
    = (issued w
       ++ list_requests "/api/users.list?token=" (token_of w) "" VUndefined [c]
       ++ reqs)%list.
Proof.
  intros Hr Hp. unfold getUserInfo, budget. rewrite Hp. simpl length.
  eapply getUserInfo_loop_past_match; eauto.
Qed.

(** A failure envelope on the first page: [null], one request. *)
Lemma getUserInfo_failed_at_once u w r post :
  fails r -> pending w = r :: post ->
  exists w',
    getUserInfo u w = (Returned VNull, w')
    /\ scanned w w' post
         (list_requests "/api/users.list?token=" (token_of w) ""
            VUndefined []).
Proof.
  intros Hr Hp. unfold getUserInfo, budget. rewrite Hp. simpl length.
  destruct (getUserInfo_loop_stop u (S (length post)) "" VUndefined VNull w r post Hp Hr)
    as [line ->].
  eexists. split; [reflexivity|]. eapply scanned_one, Hp.
Qed.

(* ================================================================== *)
(** ** Short-circuit on a match, stop on a failure *)
(* ================================================================== *)

(** C1.  The user lookup does not stop at a match.  Here "bob" is on the
    first page of the member listing, which carries the cursor [c1]:
    getUserInfo returns his record, but only after a second request, for
    the page of [c1].  The channel lookup on answers of the same shape
    stops after its first request and leaves the second answer unused. *)
Theorem getUserInfo_asks_for_page_after_match :
  Sample.observe
    (getUserInfo "bob"
       (Sample.world [Sample.page "members" [Sample.bob] "c1";
                      Sample.page "members" [] ""]))
  = (Returned Sample.bob, [],
     ["/api/users.list?token=xoxb-1";
      "/api/users.list?token=xoxb-1&cursor=c1"])
  /\ Sample.observe
       (getChannel "general"
          (Sample.world [Sample.page "channels" [Sample.general] "c1";
                         Sample.page "channels" [] ""]))
     = (Returned Sample.general, [Sample.page "channels" [] ""],
        ["/api/channels.list?token=xoxb-1"]).
Proof. split; vm_compute; reflexivity. Qed.

(** C6.  The user lookup does stop at a failure envelope, but it returns
    what it holds by then.  Here the first page has "bob" and a cursor, the
    second answer is a failure: getUserInfo sends no third request and
    returns the record of the first page, not [null].  The channel lookup
    returns [null] when its second answer is a failure. *)
Theorem getUserInfo_failure_returns_earlier_match :
  Sample.observe
    (getUserInfo "bob"
       (Sample.world [Sample.page "members" [Sample.bob] "c1";
                      Sample.failure "ratelimited";
                      Sample.page "members" [] ""]))
  = (Returned Sample.bob, [Sample.page "members" [] ""],
     ["/api/users.list?token=xoxb-1";
      "/api/users.list?token=xoxb-1&cursor=c1"])
  /\ Sample.observe
       (getChannel "general"
          (Sample.world [Sample.page "channels" [] "c1";
                         Sample.failure "ratelimited";
                         Sample.page "channels" [Sample.general] ""]))
     = (Returned VNull, [Sample.page "channels" [Sample.general] ""],
        ["/api/channels.list?token=xoxb-1";
         "/api/channels.list?token=xoxb-1&cursor=c1"]).
Proof. split; vm_compute; reflexivity. Qed.

(* ================================================================== *)
(** ** What a channel lookup can return *)
(* ================================================================== *)

(** The scan keeps the result it was given or takes an element that has a
    name, which only an object has. *)
Lemma scan_channels_result t elems cb x :
  scan_channels t elems cb = Returned x -> x = cb \/ exists o, x = VObject o.
Proof.
  induction elems as [|e rest IH]; simpl; intros H.
  - left. congruence.
  - destruct e as [| | | | |l|o]; simpl in H; try discriminate.
    destruct (call_toLowerCase (get_field o "name")) as [lowered|];
      simpl in H; [|discriminate].
    destruct (lowered =? Str.toLowerCase t)%string.
    + right. exists o. congruence.
    + now apply IH.
Qed.

Lemma is_null_true v : is_null v = true -> v = VNull.
Proof. destruct v; simpl; congruence. Qed.

(** The loop returns the result it was started with, [null], or an
    object. *)
Lemma getChannel_loop_result t fuel :
  forall parms cursor cb w x w',
    getChannel_loop fuel t parms cursor cb w = (Returned x, w') ->
    x = cb \/ exists o, x = VObject o.
Proof.
  induction fuel as [|fuel IH]; intros parms cursor cb w x w'.
  - cbn. discriminate.
  - cbn [getChannel_loop]. unfold bind at 1. unfold constant at 1.
    unfold bind at 1. unfold http_write.
    destruct (pending w) as [|r rest]; [discriminate|].
    unfold JSON_parse. destruct (body r) as [b|]; [|discriminate].
    cbn [bind lift].
    destruct (prop b "ok") as [ok|]; [|discriminate].
    destruct (truthy ok); cbn [negb bind lift console_log ret].
    2: { destruct (prop b "error"); cbn [bind console_log ret];
         [|discriminate]. intros [= <- _]. now left. }
    destruct (prop b "channels") as [cs|]; [|discriminate].
    cbn [bind lift].
    destruct (scan_channels t (for_in cs) cb) as [cb'|] eqn:Hscan;
      [|discriminate].
    apply scan_channels_result in Hscan.
    destruct (prop b "response_metadata") as [m|]; [|discriminate].
    cbn [bind lift].
    destruct (is_null cb' && negb (is_undefined m)) eqn:Hgo;
      cbn [bind lift console_log ret].
    2: { intros [= <- _]. exact Hscan. }
    apply andb_prop in Hgo as [->%is_null_true _].
    destruct (prop m "next_cursor") as [next|]; [|discriminate].
    destruct (truthy next); cbn [bind console_log ret].
    + intros H. apply IH in H. destruct H as [-> | H]; [exact Hscan | now right].
    + intros [= <- _]. exact Hscan.
Qed.

Lemma getChannel_result N w x w' :
  getChannel N w = (Returned x, w') -> x = VNull \/ exists o, x = VObject o.
Proof. unfold getChannel. apply getChannel_loop_result. Qed.

(* ================================================================== *)
(** ** Room history, archival, creation *)
(* ================================================================== *)

(** C7.  getRoomHistory returns [null] both when the channel is not found
    and when the history call fails.  When the lookup returns [null], the
    world is the one the lookup left, with one more console line: no
    history request is made.  When the lookup returns a channel and the
    answer to the history request is a failure envelope, the result is
    [null] again, after that one request; this part is for a record whose
    [id] is a primitive value and for primitive [count], [latest] and
    [oldest], which the script can print into the path. *)
Theorem getRoomHistory_null_on_not_found_and_on_failure
    (channelName : string) (count latest oldest : value) (w w1 : World) :
  (getChannel channelName w = (Returned VNull, w1) ->
   exists line,
     getRoomHistory channelName count latest oldest w
     = (Returned VNull, logged line w1)
     /\ issued (logged line w1) = issued w1)
  /\ (forall channel r rest,
        getChannel channelName w = (Returned channel, w1) ->
        is_null channel = false ->
        primitive (field channel "id") = true ->
        primitive count = true -> primitive latest = true ->
        primitive oldest = true ->
        pending w1 = r :: rest -> fails r ->
        exists line,
          getRoomHistory channelName count latest oldest w
          = (Returned VNull,
             logged line
               (sent (history_request (token_of w1) channel count latest oldest)
                     w1))).
Proof.
  split.
  - intros Hlookup. unfold getRoomHistory, bind at 1. rewrite Hlookup.
    cbn [is_null bind console_log ret]. eexists. split; reflexivity.
  - intros channel r rest Hlookup Hnn _ _ _ _ Hp (b & ok & Hb & Hok & Ht & _).
    destruct (getChannel_result _ _ _ _ Hlookup) as [-> | [o ->]];
      [discriminate|].
    unfold getRoomHistory, bind at 1. rewrite Hlookup.
    cbn [is_null bind lift prop constant]. unfold bind at 1.
    erewrite http_write_answer by exact Hp.
    unfold JSON_parse. rewrite Hb. cbn [bind lift].
    rewrite Hok, Ht. cbn [negb].
    rewrite (prop_field _ _ _ "error" Hok). cbn [bind lift console_log ret].
    eexists. reflexivity.
Qed.

(** The theorem in the specification's scenario (a listing without the
    channel: no history request) and for a channel whose history call is
    refused. *)
Lemma getRoomHistory_null_witness :
  Sample.observe
    (getRoomHistory "nochannel" VUndefined VUndefined VUndefined
       (Sample.world [Sample.page "channels" [Sample.general] ""]))
  = (Returned VNull, [], ["/api/channels.list?token=xoxb-1"])
  /\ Sample.observe
       (getRoomHistory "general" (VNumber 10) VUndefined VUndefined
          (Sample.world [Sample.page "channels" [Sample.general] "";
                         Sample.failure "channel_not_found"]))
     = (Returned VNull, [],
        ["/api/channels.list?token=xoxb-1";
         "/api/channels.history?token=xoxb-1&channel=C1&count=10"]).
Proof.
  split.
  - destruct (getRoomHistory_null_on_not_found_and_on_failure
                "nochannel" VUndefined VUndefined VUndefined
                (Sample.world [Sample.page "channels" [Sample.general] ""])
                (snd (getChannel "nochannel"
                        (Sample.world [Sample.page "channels" [Sample.general] ""]))))
      as [Hnone _].
    destruct Hnone as [line [-> _]]; [vm_compute; reflexivity|].
    vm_compute. reflexivity.
  - destruct (getRoomHistory_null_on_not_found_and_on_failure
                "general" (VNumber 10) VUndefined VUndefined
                (Sample.world [Sample.page "channels" [Sample.general] "";
                               Sample.failure "channel_not_found"])
                (snd (getChannel "general"
                        (Sample.world [Sample.page "channels" [Sample.general] "";
                                       Sample.failure "channel_not_found"]))))
      as [_ Hfail].
    destruct (Hfail Sample.general (Sample.failure "channel_not_found") [])
      as [line ->].
    + vm_compute. reflexivity.
    + reflexivity.
    + reflexivity.
    + reflexivity.
    + reflexivity.
    + reflexivity.
    + vm_compute. reflexivity.
    + exists (VObject [("ok", VBool false); ("error", VString "channel_not_found")]),
        (VBool false). repeat split.
    + vm_compute. reflexivity.
Defined.

(** C9.  archiveChannel is not total: when its lookup, which is the
    lookup of the canonical form of the name, returns [null], reading
    [channel.id] throws a TypeError, in the world the lookup left; the
    archive request is never sent. *)
Theorem archiveChannel_throws_when_not_found (channelName : string)
    (w w1 : World) :
  getChannel (canonicalize channelName) w = (Returned VNull, w1) ->
  archiveChannel channelName w = (Thrown TypeError, w1).
Proof.
  intros Hlookup. unfold archiveChannel, bind at 1.
  rewrite Hlookup. reflexivity.
Qed.

(** The theorem on a listing that does not have the channel. *)
Lemma archiveChannel_throws_witness :
  Sample.observe
    (archiveChannel "No Such Room"
       (Sample.world [Sample.page "channels" [Sample.general] "";
                      Sample.success]))
  = (Thrown TypeError, [Sample.success], ["/api/channels.list?token=xoxb-1"]).
Proof.
  rewrite (archiveChannel_throws_when_not_found "No Such Room"
             (Sample.world [Sample.page "channels" [Sample.general] "";
                            Sample.success])
             (snd (getChannel (canonicalize "No Such Room")
                     (Sample.world [Sample.page "channels" [Sample.general] "";
                                    Sample.success])))).
  - vm_compute. reflexivity.
  - vm_compute. reflexivity.
Defined.

(** C3.  createChannel sends one create request for the canonical name.
    When the answer's [error] is [name_taken], the result is that of the
    channel lookup for the canonical name, run in the world after the
    create call; otherwise the result is the answer's [channel], and the
    create request is the only one sent.  The answer's [error] is a
    primitive value (an error code, or nothing), which [==] compares
    without throwing. *)
Theorem createChannel_falls_back_on_name_taken (N : string) (w : World)
    (r : Response) (rest : list Response) (b error : value) :
  pending w = r :: rest -> body r = Some b ->
  prop b "error" = Returned error -> primitive error = true ->
  let w1 := sent (create_request (token_of w) (canonicalize N)) w in
  (loose_eq_lit error "name_taken" = true ->
   exists line1 line2,
     createChannel N w
     = getChannel (canonicalize N) (logged line2 (logged line1 w1)))
  /\ (loose_eq_lit error "name_taken" = false ->
      exists line,
        createChannel N w = (Returned (field b "channel"), logged line w1)
        /\ issued (logged line w1)
           = (issued w ++ [create_request (token_of w) (canonicalize N)])%list).
Proof.
  intros Hp Hb Herr _ w1.
  assert (Hc : createChannel N w
               = (if loose_eq_lit error "name_taken"
                  then (let! _ := console_log
                          ("Channel " +:+ dquote +:+ canonicalize N +:+ dquote
                           +:+ " already exists. Getting info.") in
                        getChannel (canonicalize N))
                  else lift (prop b "channel"))
                   (logged ("Slack Create Channel Response: "
                            +:+ to_string (JSON_stringify b)) w1)).
  { unfold createChannel, bind at 1. unfold constant at 1.
    fold (token_of w). unfold bind at 1.
    erewrite http_write_answer by exact Hp.
    unfold JSON_parse. rewrite Hb. cbn [bind lift console_log].
    rewrite Herr. reflexivity. }
  split; intros Hcode; rewrite Hcode in Hc.
  - do 2 eexists. rewrite Hc. cbn [bind console_log]. reflexivity.
  - eexists. rewrite Hc. rewrite (prop_field _ _ _ "channel" Herr).
    split; reflexivity.
Qed.

(** The theorem on a name that is taken (the channel is then looked up)
    and on a name that is free (the answer's record is returned). *)
Lemma createChannel_falls_back_witness :
  Sample.observe
    (createChannel "Incident 2024-01-01 Very Long Title"
       (Sample.world
          [Sample.failure "name_taken";
           Sample.page "channels"
             [Sample.general; Sample.channel "C7" "incident-2024-01-01-v"] ""]))
  = (Returned (Sample.channel "C7" "incident-2024-01-01-v"), [],
     ["/api/channels.create?token=xoxb-1&name=incident-2024-01-01-v";
      "/api/channels.list?token=xoxb-1"])
  /\ Sample.observe
       (createChannel "Incident 2024-01-01 Very Long Title"
          (Sample.world
             [mkResponse 200
                (Some (VObject
                         [("ok", VBool true);
                          ("channel",
                           Sample.channel "C7" "incident-2024-01-01-v")]))]))
     = (Returned (Sample.channel "C7" "incident-2024-01-01-v"), [],
        ["/api/channels.create?token=xoxb-1&name=incident-2024-01-01-v"]).
Proof.
  split.
  - destruct (createChannel_falls_back_on_name_taken
                "Incident 2024-01-01 Very Long Title"
                (Sample.world
                   [Sample.failure "name_taken";
                    Sample.page "channels"
                      [Sample.general;
                       Sample.channel "C7" "incident-2024-01-01-v"] ""])
                _ _ _ _ eq_refl eq_refl eq_refl eq_refl) as [Htaken _].
    destruct (Htaken eq_refl) as (line1 & line2 & ->).
    vm_compute. reflexivity.
  - destruct (createChannel_falls_back_on_name_taken
                "Incident 2024-01-01 Very Long Title"
                (Sample.world
                   [mkResponse 200
                      (Some (VObject
                               [("ok", VBool true);
                                ("channel",
                                 Sample.channel "C7" "incident-2024-01-01-v")]))])
                _ _ _ _ eq_refl eq_refl eq_refl eq_refl) as [_ Hfree].
    destruct (Hfree eq_refl) as (line & -> & _).
    vm_compute. reflexivity.
Defined.

(* ================================================================== *)
(** ** Invitations *)
(* ================================================================== *)

(** inviteToChannel, no channel id given, the channel is not found: [null],
    and nothing is sent after the lookup. *)
Lemma inviteToChannel_channel_not_found userName channelName userId channelId
    w w1 :
  truthy channelId = false ->
  getChannel channelName w = (Returned VNull, w1) ->
  inviteToChannel userName channelName userId channelId w = (Returned None, w1).
Proof.
  intros Hid Hlookup. unfold inviteToChannel. rewrite Hid. cbn [negb].
  unfold bind at 1. unfold bind at 1. rewrite Hlookup. reflexivity.
Qed.

(** inviteToChannel, the channel is found but the user is not: [null], and
    nothing is sent after the two lookups. *)
Lemma inviteToChannel_user_not_found userName channelName userId channelId
    w w1 w2 channel :
  truthy channelId = false ->
  getChannel channelName w = (Returned channel, w1) ->
  is_null channel = false ->
  truthy userId = false ->
  getUserInfo userName w1 = (Returned VNull, w2) ->
  inviteToChannel userName channelName userId channelId w = (Returned None, w2).
Proof.
  intros Hid Hlookup Hnn Huid Huser.
  destruct (getChannel_result _ _ _ _ Hlookup) as [-> | [o ->]];
    [discriminate|].
  unfold inviteToChannel. rewrite Hid, Huid. cbn [negb].
  unfold bind at 1. unfold bind at 1. rewrite Hlookup.
  cbn [is_null negb bind lift prop ret].
  unfold bind at 1. unfold bind at 1. rewrite Huser. reflexivity.
Qed.

(** inviteToChannel, both found: the request carries the [channel_name]
    property of the channel record and the user record itself, each turned
    into a string as [to_string] does it, which is the script's way for a
    primitive [channel_name] and a record that inherits [toString]. *)
Lemma inviteToChannel_sends_records userName channelName userId channelId
    w w1 w2 channel user r rest :
  truthy channelId = false ->
  getChannel channelName w = (Returned channel, w1) ->
  is_null channel = false ->
  truthy userId = false ->
  getUserInfo userName w1 = (Returned user, w2) ->
  is_null user = false ->
  pending w2 = r :: rest ->
  inviteToChannel userName channelName userId channelId w
  = (Returned (Some r),
     sent (basic_invite_request (token_of w2) (field channel "channel_name") user)
          w2).
Proof.
  intros Hid Hlookup Hnn Huid Huser Hun Hp.
  destruct (getChannel_result _ _ _ _ Hlookup) as [-> | [o ->]];
    [discriminate|].
  unfold inviteToChannel. rewrite Hid, Huid. cbn [negb].
  unfold bind at 1. unfold bind at 1. rewrite Hlookup.
  cbn [is_null negb bind lift prop ret].
  unfold bind at 1. unfold bind at 1. rewrite Huser, Hun.
  cbn [bind ret constant]. unfold bind at 1.
  erewrite http_write_answer by exact Hp. reflexivity.
Qed.

(** C2.  inviteToChannel does not send the resolved identifiers.  Here the
    channel "general" resolves to the record with id C1 and the user "bob"
    to the record with id U1; the invite request has [channel=undefined]
    (the record has no [channel_name] property) and
    [user=[object Object]] (the record, not its id). *)
Theorem inviteToChannel_sends_no_identifier :
  Sample.observe
    (inviteToChannel "bob" "general" VUndefined VUndefined
       (Sample.world [Sample.page "channels" [Sample.general] "";
                      Sample.page "members" [Sample.bob] "";
                      Sample.success]))
  = (Returned (Some Sample.success), [],
     ["/api/channels.list?token=xoxb-1";
      "/api/users.list?token=xoxb-1";
      "/api/channels.invite?token=xoxb-1&channel=undefined&user=[object Object]"]).
Proof. vm_compute. reflexivity. Qed.

(** postMessageWithFields for a user and a non-empty text sends exactly one
    request, the mention message, whatever the transport answers. *)
Lemma postMessageWithFields_posts text channel user w cid uid :
  prop channel "id" = Returned cid ->
  truthy user = true -> prop user "id" = Returned uid ->
  truthy (VString text) = true ->
  issued (snd (postMessageWithFields text channel user w))
  = (issued w ++ [mention_request (token_of w) cid uid text])%list.
Proof.
  intros Hcid Huser Huid Htext.
  unfold postMessageWithFields. rewrite Hcid, Huser, Huid, Htext.
  cbn [bind lift ret set_field get_field String.eqb Ascii.eqb Bool.eqb
       to_string constant].
  unfold bind at 1. unfold http_write.
  destruct (pending w) as [|r rest]; [reflexivity|].
  unfold JSON_parse. destruct (body r) as [b|]; [|reflexivity].
  cbn [bind lift].
  destruct (prop b "ok") as [ok|]; [|reflexivity].
  destruct (truthy ok); reflexivity.
Qed.

(** C8, as the script has it.  channelInvite on a failure answer whose
    error code is [already_in_channel], for records whose [id]s are
    primitive values.  For a user whose name is not "xmatters" (in any
    case) it goes on as postMessageWithFields does, so that the requests
    sent are the invite and then the mention message into the channel.
    For the service account no message is posted: the invite is the only
    request, the console gets the line "Disregarding xMatters user already
    exists in channel", and the call returns [null], the value it returns
    on a failure. *)
Theorem channelInvite_already_in_channel (slackUser slackChannel : value)
    (w : World) (r : Response) (rest : list Response) (b ok cid uid : value)
    (name : string) :
  prop slackChannel "id" = Returned cid -> primitive cid = true ->
  prop slackUser "id" = Returned uid -> primitive uid = true ->
  prop slackUser "name" = Returned (VString name) ->
  pending w = r :: rest -> body r = Some b ->
  prop b "ok" = Returned ok -> truthy ok = false ->
  field b "error" = VString "already_in_channel" ->
  let invite := invite_request (token_of w) cid uid in
  ((Str.toLowerCase name =? "xmatters") = false ->
   channelInvite slackUser slackChannel w
   = postMessageWithFields " already in channel" slackChannel slackUser
       (sent invite w)
   /\ issued (snd (channelInvite slackUser slackChannel w))
      = (issued w ++ [invite; membership_notice (token_of w) cid uid])%list)
  /\ ((Str.toLowerCase name =? "xmatters") = true ->
      channelInvite slackUser slackChannel w
      = (Returned VNull,
         logged "Disregarding xMatters user already exists in channel"
           (sent invite w))
      /\ issued (snd (channelInvite slackUser slackChannel w))
         = (issued w ++ [invite])%list).
Proof.
  intros Hcid _ Huid _ Hname Hp Hb Hok Ht Hcode invite.
  assert (Herr : loose_eq_lit (field b "error") "already_in_channel" = true)
    by (rewrite Hcode; reflexivity).
  assert (Hrun : channelInvite slackUser slackChannel w
                 = (if negb (Str.toLowerCase name =? "xmatters")
                    then postMessageWithFields " already in channel"
                           slackChannel slackUser
                    else
                      let! _ := console_log
                        "Disregarding xMatters user already exists in channel" in
                      ret VNull) (sent invite w)).
  { unfold channelInvite. rewrite Hcid, Huid.
    cbn [bind lift constant set_field String.eqb Ascii.eqb Bool.eqb].
    unfold bind at 1. erewrite http_write_answer by exact Hp.
    unfold JSON_parse. rewrite Hb. cbn [bind lift].
    rewrite Hok, Ht. cbn [negb].
    rewrite (prop_field _ _ _ "error" Hok). cbn [bind lift].
    rewrite Herr, Hname. cbn [bind lift call_toLowerCase ret].
    destruct (Str.toLowerCase name =? "xmatters")%string eqn:E;
      cbn [negb bind lift call_toLowerCase]; rewrite ?E; reflexivity. }
  assert (Huser : truthy slackUser = true).
  { destruct slackUser; simpl in Hname; try discriminate; reflexivity. }
  split; intros Hcase; rewrite Hcase in Hrun; cbn [negb] in Hrun.
  - split; [exact Hrun|]. rewrite Hrun.
    rewrite (postMessageWithFields_posts " already in channel" _ _ _ cid uid
               Hcid Huser Huid eq_refl).
    cbn. rewrite <- app_assoc. reflexivity.
  - split; [exact Hrun | rewrite Hrun; reflexivity].
Qed.

(** The theorem for a responder who is in the channel and for the service
    account. *)
Lemma channelInvite_already_in_channel_witness :
  Sample.observe
    (channelInvite Sample.bob Sample.general
       (Sample.world [Sample.failure "already_in_channel"; Sample.success]))
  = (Returned (VObject [("ok", VBool true)]), [],
     ["/api/channels.invite?channel=C1&user=U1&token=xoxb-1";
      "/api/chat.postMessage?channel=C1&text=%3C%40U1%3E%20already%20in%20channel&token=xoxb-1"])
  /\ Sample.observe
       (channelInvite Sample.bot Sample.general
          (Sample.world [Sample.failure "already_in_channel"; Sample.success]))
     = (Returned VNull, [Sample.success],
        ["/api/channels.invite?channel=C1&user=U9&token=xoxb-1"]).
Proof.
  split.
  - destruct (channelInvite_already_in_channel Sample.bob Sample.general
                (Sample.world [Sample.failure "already_in_channel"; Sample.success])
                _ _ _ _ _ _ _
                eq_refl eq_refl eq_refl eq_refl eq_refl eq_refl eq_refl eq_refl
                eq_refl eq_refl)
      as [Hother _].
    destruct (Hother eq_refl) as [-> _]. vm_compute. reflexivity.
  - destruct (channelInvite_already_in_channel Sample.bot Sample.general
                (Sample.world [Sample.failure "already_in_channel"; Sample.success])
                _ _ _ _ _ _ _
                eq_refl eq_refl eq_refl eq_refl eq_refl eq_refl eq_refl eq_refl
                eq_refl eq_refl)
      as [_ Hbot].
    destruct (Hbot eq_refl) as [-> _]. vm_compute. reflexivity.
Defined.

(** C8, as stated, fails: the service account's [already_in_channel] is
    not treated as a success.  channelInvite returns [null] for it, which
    is what it returns for another user on a hard failure, and not the
    parsed answer that it returns on a success. *)
Lemma channelInvite_service_account_gets_failure_value :
  fst (channelInvite Sample.bot Sample.general
         (Sample.world [Sample.failure "already_in_channel"]))
  = Returned VNull
  /\ fst (channelInvite Sample.bob Sample.general
            (Sample.world [Sample.failure "channel_not_found"]))
     = Returned VNull
  /\ fst (channelInvite Sample.bot Sample.general
            (Sample.world [Sample.success]))
     = Returned (VObject [("ok", VBool true)])
  /\ VNull <> VObject [("ok", VBool true)].
Proof.
  repeat split; try (vm_compute; reflexivity). discriminate.
Qed.

(* ================================================================== *)
(** ** postMessage and the caller's payload *)
(* ================================================================== *)

Lemma get_set_same o k v : get_field (set_field o k v) k = v.
Proof.
  induction o as [|[k' v'] r IH]; simpl.
  - now rewrite String.eqb_refl.
  - destruct (k' =? k)%string eqn:E; simpl; rewrite E; [reflexivity | exact IH].
Qed.

Lemma get_set_other o k v k' :
  k <> k' -> get_field (set_field o k v) k' = get_field o k'.
Proof.
  intros Hne. induction o as [|[k0 v0] r IH]; simpl.
  - apply String.eqb_neq in Hne. now rewrite Hne.
  - destruct (k0 =? k)%string eqn:E; simpl.
    + apply String.eqb_eq in E. subst k0.
      apply String.eqb_neq in Hne. now rewrite Hne.
    + destruct (k0 =? k')%string; [reflexivity | exact IH].
Qed.

(** The store after postMessage, whatever the outcome of the call: the
    payload has become [posted], the other objects are as they were. *)
Lemma postMessage_store payload o w :
  store w !! payload = Some o ->
  store (snd (postMessage payload w))
  = <[payload := posted (token_of w) o]> (store w).
Proof.
  intros Ho. unfold postMessage. unfold bind at 1. unfold constant at 1.
  fold (token_of w). unfold bind at 1. unfold obj_set at 1. rewrite Ho.
  unfold bind at 1. unfold obj_read at 1. cbn [store].
  rewrite lookup_insert_eq. unfold posted.
  set (o1 := set_field o "token" (token_of w)).
  cbv zeta.
  assert (Hrest : forall (json : object) (w0 : World),
             store (snd ((let! slackResponse :=
                            http_write
                              {| endpoint := "Slack"; method := "POST";
                                 path := "/chat.postMessage"
                                         +:+ jsonToQueryString json;
                                 headers := []; written := Some json |} in
                          let! slackBody := lift (JSON_parse slackResponse) in
                          let! ok := lift (prop slackBody "ok") in
                          if negb (truthy ok)
                          then let! _ := console_log "Error posting message!" in
                               ret VNull
                          else ret slackBody) w0))
             = store w0).
  { intros json w0. unfold bind at 1. unfold http_write.
    destruct (pending w0) as [|r rest]; [reflexivity|].
    unfold JSON_parse. destruct (body r) as [b|]; [|reflexivity].
    cbn [bind lift].
    destruct (prop b "ok") as [ok|]; [|reflexivity].
    destruct (truthy ok); reflexivity. }
  destruct (truthy (get_field o1 "attachments")).
  - unfold bind at 1. unfold obj_set at 1. cbn [store].
    rewrite lookup_insert_eq.
    unfold bind at 1. unfold obj_read at 1. cbn [store].
    rewrite lookup_insert_eq, Hrest. cbn [store].
    now rewrite insert_insert_eq.
  - unfold bind at 1. cbn [ret].
    unfold bind at 1. unfold obj_read at 1. cbn [store].
    rewrite lookup_insert_eq, Hrest. reflexivity.
Qed.

(** C10, as the script has it.  postMessage changes the object it is
    given, and the change is there after the call whatever its outcome: the
    token of the host is under [token]; [attachments] holds its
    JSON.stringify text when it was truthy and is left as it was when it
    was falsy; the other properties and the other objects of the caller
    are untouched. *)
Theorem postMessage_mutates_payload (payload : loc) (o : object) (w : World) :
  store w !! payload = Some o ->
  exists o',
    store (snd (postMessage payload w)) !! payload = Some o'
    /\ get_field o' "token" = token_of w
    /\ get_field o' "attachments"
       = (if truthy (get_field o "attachments")
          then JSON_stringify (get_field o "attachments")
          else get_field o "attachments")
    /\ (forall k, k <> "token" -> k <> "attachments" ->
                  get_field o' k = get_field o k)
    /\ (forall l : loc, l <> payload ->
                  store (snd (postMessage payload w)) !! l = store w !! l).
Proof.
  intros Ho. exists (posted (token_of w) o).
  rewrite (postMessage_store _ _ _ Ho).
  assert (Hatt : get_field (set_field o "token" (token_of w)) "attachments"
                 = get_field o "attachments")
    by (apply get_set_other; discriminate).
  split; [apply lookup_insert_eq|].
  unfold posted. rewrite Hatt.
  destruct (truthy (get_field o "attachments")); repeat split.
  - rewrite get_set_other by discriminate. apply get_set_same.
  - apply get_set_same.
  - intros k Hk1 Hk2. rewrite !get_set_other by congruence. reflexivity.
  - intros l Hl. now rewrite lookup_insert_ne.
  - apply get_set_same.
  - exact Hatt.
  - intros k Hk1 Hk2. rewrite get_set_other by congruence. reflexivity.
  - intros l Hl. now rewrite lookup_insert_ne.
Qed.

(** The theorem on a payload with an attachment array, where the call
    fails: the caller's object holds the token and the JSON text all the
    same. *)
Lemma postMessage_mutates_payload_witness :
  exists o',
    store (snd (postMessage 0
                  (Sample.holding
                     [("channel", VString "#general");
                      ("attachments", VArray [VObject [("text", VString "hi")]])]
                     [Sample.failure "channel_not_found"]))) !! 0
    = Some o'
    /\ get_field o' "token" = VString "xoxb-1"
    /\ get_field o' "attachments"
       = VString ("[{" +:+ dquote +:+ "text" +:+ dquote +:+ ":"
                  +:+ dquote +:+ "hi" +:+ dquote +:+ "}]")
    /\ get_field o' "channel" = VString "#general".
Proof.
  destruct (postMessage_mutates_payload 0
              [("channel", VString "#general");
               ("attachments", VArray [VObject [("text", VString "hi")]])]
              (Sample.holding
                 [("channel", VString "#general");
                  ("attachments", VArray [VObject [("text", VString "hi")]])]
                 [Sample.failure "channel_not_found"]))
    as (o' & Hst & Htok & Hatt & Hkeep & _).
  - reflexivity.
  - exists o'. split; [exact Hst|]. split; [exact Htok|].
    split; [exact Hatt|]. apply Hkeep; discriminate.
Defined.

(** C10, as stated, fails: a payload can have an [attachments] property
    that postMessage leaves alone.  The empty string and [null] are falsy;
    their JSON texts would be a pair of quotes and the word null. *)
Lemma postMessage_keeps_falsy_attachments :
  (has_field [("channel", VString "#general"); ("attachments", VString "")]
     "attachments" = true
   /\ store (snd (postMessage 0
                    (Sample.holding
                       [("channel", VString "#general");
                        ("attachments", VString "")]
                       [Sample.success]))) !! 0
      = Some [("channel", VString "#general"); ("attachments", VString "");
              ("token", VString "xoxb-1")]
   /\ JSON_stringify (VString "") <> VString "")
  /\ (has_field [("channel", VString "#general"); ("attachments", VNull)]
        "attachments" = true
      /\ store (snd (postMessage 0
                       (Sample.holding
                          [("channel", VString "#general");
                           ("attachments", VNull)]
                          [Sample.success]))) !! 0
         = Some [("channel", VString "#general"); ("attachments", VNull);
                 ("token", VString "xoxb-1")]
      /\ JSON_stringify VNull <> VNull).
Proof.
  repeat split; try (vm_compute; reflexivity); vm_compute; discriminate.
Qed.

(* ================================================================== *)
(** ** The loop counter of the model never runs out *)
(* ================================================================== *)

Lemma prop_throws v k e : prop v k = Thrown e -> e = TypeError.
Proof. destruct v; simpl; congruence. Qed.

Lemma call_toLowerCase_throws v e :
  call_toLowerCase v = Thrown e -> e = TypeError.
Proof. destruct v; simpl; congruence. Qed.

Lemma scan_channels_throws t elems cb e :
  scan_channels t elems cb = Thrown e -> e = TypeError.
Proof.
  induction elems as [|x l IH]; simpl; [discriminate|].
  destruct (prop x "name") as [n|e0] eqn:Hn; simpl.
  - destruct (call_toLowerCase n) as [s|e1] eqn:Hc; simpl.
    + destruct (s =? Str.toLowerCase t)%string; [discriminate | exact IH].
    + intros [= <-]. eapply call_toLowerCase_throws, Hc.
  - intros [= <-]. eapply prop_throws, Hn.
Qed.

Lemma scan_members_throws u elems sm e :
  scan_members u elems sm = Thrown e -> e = TypeError.
Proof.
  induction elems as [|x l IH]; simpl; [discriminate|].
  destruct (prop x "profile") as [p|e0] eqn:Hp; simpl;
    [|intros [= <-]; eapply prop_throws, Hp].
  destruct (prop p "display_name") as [d|e0] eqn:Hd; simpl;
    [|intros [= <-]; eapply prop_throws, Hd].
  destruct (call_toLowerCase d) as [s|e0] eqn:Hs; simpl;
    [|intros [= <-]; eapply call_toLowerCase_throws, Hs].
  destruct (s =? Str.toLowerCase u)%string; [discriminate|].
  destruct (prop x "name") as [n|e0] eqn:Hn; simpl;
    [|intros [= <-]; eapply prop_throws, Hn].
  destruct (call_toLowerCase n) as [s'|e0] eqn:Hs'; simpl;
    [|intros [= <-]; eapply call_toLowerCase_throws, Hs'].
  destruct (s' =? Str.toLowerCase u)%string; [discriminate | exact IH].
Qed.

Local Ltac script_error H lem :=
  apply lem in H; subst; discriminate.

Lemma getChannel_loop_within_budget t fuel :
  forall parms cursor cb w,
    length (pending w) < fuel ->
    fst (getChannel_loop fuel t parms cursor cb w) <> Thrown LoopBudget.
Proof.
  induction fuel as [|fuel IH]; intros parms cursor cb w Hfuel; [lia|].
  cbn [getChannel_loop]. unfold bind at 1. unfold constant at 1.
  unfold bind at 1. unfold http_write.
  destruct (pending w) as [|r rest] eqn:Hp; [discriminate|].
  unfold JSON_parse. destruct (body r) as [b|]; [|discriminate].
  cbn [bind lift].
  destruct (prop b "ok") as [ok|e] eqn:Hok; [|script_error Hok prop_throws].
  destruct (truthy ok); cbn [negb bind lift console_log ret].
  2: { rewrite (prop_field _ _ _ "error" Hok). discriminate. }
  rewrite (prop_field _ _ _ "channels" Hok). cbn [bind lift].
  destruct (scan_channels t (for_in (field b "channels")) cb) as [cb'|e]
    eqn:Hscan; [|script_error Hscan scan_channels_throws].
  rewrite (prop_field _ _ _ "response_metadata" Hok). cbn [bind lift].
  destruct (is_null cb' && negb (is_undefined (field b "response_metadata")));
    cbn [bind lift console_log ret]; [|discriminate].
  destruct (prop (field b "response_metadata") "next_cursor") as [next|e]
    eqn:Hn; [|script_error Hn prop_throws].
  destruct (truthy next); cbn [bind console_log ret]; [|discriminate].
  apply IH. cbn. rewrite Hp. simpl in Hfuel |- *. lia.
Qed.

(** getChannel always ends, by a return or by an exception of the
    script. *)
Lemma getChannel_ends N w : fst (getChannel N w) <> Thrown LoopBudget.
Proof. apply getChannel_loop_within_budget. unfold budget. lia. Qed.

Lemma getUserInfo_loop_within_budget u fuel :
  forall parms cursor sm w,
    length (pending w) < fuel ->
    fst (getUserInfo_loop fuel u parms cursor sm w) <> Thrown LoopBudget.
Proof.
  induction fuel as [|fuel IH]; intros parms cursor sm w Hfuel; [lia|].
  cbn [getUserInfo_loop]. unfold bind at 1. unfold constant at 1.
  unfold bind at 1. unfold http_write.
  destruct (pending w) as [|r rest] eqn:Hp; [discriminate|].
  unfold JSON_parse. destruct (body r) as [b|]; [|discriminate].
  cbn [bind lift].
  destruct (prop b "ok") as [ok|e] eqn:Hok; [|script_error Hok prop_throws].
  destruct (truthy ok); cbn [negb bind lift console_log ret]; [|discriminate].
  rewrite (prop_field _ _ _ "members" Hok). cbn [bind lift].
  destruct (scan_members u (for_in (field b "members")) sm) as [sm'|e]
    eqn:Hscan; [|script_error Hscan scan_members_throws].
  rewrite (prop_field _ _ _ "response_metadata" Hok). cbn [bind lift].
  destruct (prop (field b "response_metadata") "next_cursor") as [next|e]
    eqn:Hn; [|script_error Hn prop_throws].
  destruct (truthy next); cbn [bind console_log ret]; [|discriminate].
  apply IH. cbn. rewrite Hp. simpl in Hfuel |- *. lia.
Qed.

(** getUserInfo always ends, by a return or by an exception of the
    script. *)
Lemma getUserInfo_ends u w : fst (getUserInfo u w) <> Thrown LoopBudget.
Proof. apply getUserInfo_loop_within_budget. unfold budget. lia. Qed.

(* ================================================================== *)
(** ** The scans: first match, case, malformed entries *)
(* ================================================================== *)

Lemma scan_channels_skip t x rest cb :
  has_other_text "name" t x = true ->
  scan_channels t (x :: rest) cb = scan_channels t rest cb.
Proof.
  destruct x as [| | | | | |o]; simpl; try discriminate.
  destruct (get_field o "name"); simpl; try discriminate.
  now intros ->%negb_true_iff.
Qed.

Lemma scan_channels_take t x rest cb :
  has_text "name" t x = true -> scan_channels t (x :: rest) cb = Returned x.
Proof.
  destruct x as [| | | | | |o]; simpl; try discriminate.
  destruct (get_field o "name"); simpl; try discriminate.
  now intros ->.
Qed.

Lemma scan_channels_passes t elems cb :
  Forall (fun x => has_other_text "name" t x = true) elems ->
  forall rest, scan_channels t (elems ++ rest)%list cb = scan_channels t rest cb.
Proof.
  induction 1 as [|x l Hx Hl IH]; intros rest; [reflexivity|].
  rewrite <- app_comm_cons, scan_channels_skip by exact Hx. apply IH.
Qed.

(** X1.  The scan of a page of channels, as the loop of getChannel does it.
    Entries whose name differs from the target (compared in lower case) are
    passed over; the first entry whose name equals it is the result, and
    the entries after it are not looked at; when no entry matches the
    result is left as it was; an entry before the match that is not an
    object with a string name makes the scan throw a TypeError. *)
Theorem scan_channels_first_match (t : string) (before after : list value)
    (x cb : value) :
  Forall (fun y => has_other_text "name" t y = true) before ->
  (has_text "name" t x = true ->
   scan_channels t (before ++ x :: after)%list cb = Returned x)
  /\ scan_channels t before cb = Returned cb
  /\ (has_text "name" t x = false -> has_other_text "name" t x = false ->
      scan_channels t (before ++ x :: after)%list cb = Thrown TypeError).
Proof.
  intros Hbefore. split; [|split].
  - intros Hx. rewrite scan_channels_passes by exact Hbefore.
    now apply scan_channels_take.
  - rewrite <- (app_nil_r before), scan_channels_passes by exact Hbefore.
    reflexivity.
  - intros Hx Hy. rewrite scan_channels_passes by exact Hbefore.
    destruct x as [| | | | | |o]; simpl; try reflexivity.
    simpl in Hx, Hy. destruct (get_field o "name"); simpl; try reflexivity.
    destruct (Str.toLowerCase s =? Str.toLowerCase t); discriminate.
Qed.

Lemma scan_channels_first_match_witness :
  scan_channels "General"
    [Sample.channel "C0" "random"; Sample.channel "C1" "GENERAL"; VNull] VNull
  = Returned (Sample.channel "C1" "GENERAL")
  /\ scan_channels "general" [Sample.channel "C0" "random"; VNull] VNull
     = Thrown TypeError.
Proof.
  destruct (scan_channels_first_match "General" [Sample.channel "C0" "random"]
              [VNull] (Sample.channel "C1" "GENERAL") VNull) as (H1 & _ & _).
  { repeat constructor. }
  destruct (scan_channels_first_match "general" [Sample.channel "C0" "random"]
              [] VNull VNull) as (_ & _ & H3).
  { repeat constructor. }
  split; [apply H1; reflexivity | apply H3; reflexivity].
Defined.

Lemma scan_members_skip u x rest sm :
  is_other_member u x = true ->
  scan_members u (x :: rest) sm = scan_members u rest sm.
Proof.
  unfold is_other_member, field.
  destruct x as [| | | | | |o]; simpl; try discriminate.
  destruct (get_field o "profile") as [| | | | | |p]; simpl; try discriminate.
  destruct (get_field p "display_name"); simpl; try discriminate.
  destruct (get_field o "name"); simpl; try (rewrite andb_false_r; discriminate).
  intros [->%negb_true_iff ->%negb_true_iff]%andb_prop. reflexivity.
Qed.

Lemma scan_members_take u x rest sm :
  is_member_named u x = true ->
  has_text "display_name" u (field x "profile") = true
  \/ has_other_text "display_name" u (field x "profile") = true ->
  scan_members u (x :: rest) sm = Returned x.
Proof.
  unfold is_member_named, field.
  destruct x as [| | | | | |o]; simpl; try (intros _ [?|?]; discriminate).
  destruct (get_field o "profile") as [| | | | | |p]; simpl;
    try (intros _ [?|?]; discriminate).
  destruct (get_field p "display_name"); simpl;
    try (intros _ [?|?]; discriminate).
  destruct (Str.toLowerCase s =? Str.toLowerCase u); [reflexivity|].
  simpl. destruct (get_field o "name"); simpl; try discriminate.
  now intros ->.
Qed.

Lemma scan_members_passes u elems sm :
  Forall (fun x => is_other_member u x = true) elems ->
  forall rest, scan_members u (elems ++ rest)%list sm = scan_members u rest sm.
Proof.
  induction 1 as [|x l Hx Hl IH]; intros rest; [reflexivity|].
  rewrite <- app_comm_cons, scan_members_skip by exact Hx. apply IH.
Qed.

(** X2.  The scan of a page of members, as the loop of getUserInfo does it.
    Members whose display name and handle both differ from the name looked
    for (in lower case) are passed over; the first member whose display
    name equals it, or whose display name is another string and whose
    handle equals it, is the result; when no member matches the result is
    left as it was. *)
Theorem scan_members_first_match (u : string) (before after : list value)
    (x sm : value) :
  Forall (fun y => is_other_member u y = true) before ->
  (has_text "display_name" u (field x "profile") = true ->
   scan_members u (before ++ x :: after)%list sm = Returned x)
  /\ (has_other_text "display_name" u (field x "profile") = true ->
      has_text "name" u x = true ->
      scan_members u (before ++ x :: after)%list sm = Returned x)
  /\ scan_members u before sm = Returned sm.
Proof.
  intros Hbefore. split; [|split].
  - intros Hx. rewrite scan_members_passes by exact Hbefore.
    apply scan_members_take; [|now left].
    unfold is_member_named. now rewrite Hx.
  - intros Hd Hn. rewrite scan_members_passes by exact Hbefore.
    apply scan_members_take; [|now right].
    unfold is_member_named. rewrite Hn. apply orb_true_r.
  - rewrite <- (app_nil_r before), scan_members_passes by exact Hbefore.
    reflexivity.
Qed.

Lemma scan_members_first_match_witness :
  scan_members "BOB"
    [Sample.member "U0" "alice" "Alice"; Sample.bob; Sample.bot] VNull
  = Returned Sample.bob
  /\ scan_members "bobby"
       [Sample.member "U0" "alice" "Alice"; Sample.bob; Sample.bot] VNull
     = Returned Sample.bob.
Proof.
  destruct (scan_members_first_match "BOB" [Sample.member "U0" "alice" "Alice"]
              [Sample.bot] Sample.bob VNull) as (_ & H2 & _).
  { repeat constructor. }
  destruct (scan_members_first_match "bobby" [Sample.member "U0" "alice" "Alice"]
              [Sample.bot] Sample.bob VNull) as (H1 & _ & _).
  { repeat constructor. }
  split; [apply H2; reflexivity | apply H1; reflexivity].
Defined.

(* ================================================================== *)
(** ** A lookup returns the record asked for, or nothing *)
(* ================================================================== *)

Lemma scan_channels_sound t elems cb x :
  scan_channels t elems cb = Returned x ->
  x = cb \/ has_text "name" t x = true.
Proof.
  induction elems as [|e rest IH]; simpl; intros H.
  - left. congruence.
  - destruct e as [| | | | |l|o]; simpl in H; try discriminate.
    destruct (get_field o "name") as [| | | |s| |] eqn:Hn; simpl in H;
      try discriminate.
    destruct (Str.toLowerCase s =? Str.toLowerCase t) eqn:E.
    + right. injection H as <-. simpl. now rewrite Hn.
    + now apply IH.
Qed.

Lemma getChannel_loop_sound t fuel :
  forall parms cursor cb w x w',
    getChannel_loop fuel t parms cursor cb w = (Returned x, w') ->
    x = cb \/ has_text "name" t x = true.
Proof.
  induction fuel as [|fuel IH]; intros parms cursor cb w x w'.
  - cbn. discriminate.
  - cbn [getChannel_loop]. unfold bind at 1. unfold constant at 1.
    unfold bind at 1. unfold http_write.
    destruct (pending w) as [|r rest]; [discriminate|].
    unfold JSON_parse. destruct (body r) as [b|]; [|discriminate].
    cbn [bind lift].
    destruct (prop b "ok") as [ok|]; [|discriminate].
    destruct (truthy ok); cbn [negb bind lift console_log ret].
    2: { destruct (prop b "error"); cbn [bind console_log ret];
         [|discriminate]. intros [= <- _]. now left. }
    destruct (prop b "channels") as [cs|]; [|discriminate].
    cbn [bind lift].
    destruct (scan_channels t (for_in cs) cb) as [cb'|] eqn:Hscan;
      [|discriminate].
    apply scan_channels_sound in Hscan.
    destruct (prop b "response_metadata") as [m|]; [|discriminate].
    cbn [bind lift].
    destruct (is_null cb' && negb (is_undefined m)) eqn:Hgo;
      cbn [bind lift console_log ret].
    2: { intros [= <- _]. exact Hscan. }
    destruct (prop m "next_cursor") as [next|]; [|discriminate].
    destruct (truthy next); cbn [bind console_log ret].
    + intros H. apply IH in H. destruct H as [-> | H]; [exact Hscan | now right].
    + intros [= <- _]. exact Hscan.
Qed.

(** X3.  getChannel never returns a wrong channel: what it returns is
    [null] or an object whose name is a string equal, in lower case, to the
    canonical form of the name asked for. *)
Theorem getChannel_returns_the_named_channel (N : string) (w w' : World)
    (x : value) :
  getChannel N w = (Returned x, w') ->
  x = VNull \/ has_text "name" (canonicalize N) x = true.
Proof. unfold getChannel. apply getChannel_loop_sound. Qed.

Lemma getChannel_returns_the_named_channel_witness :
  has_text "name" (canonicalize "My Room")
    (Sample.channel "C2" "My-Room") = true.
Proof.
  destruct (getChannel_returns_the_named_channel "My Room"
              (Sample.world
                 [Sample.page "channels" [Sample.general] "c1";
                  Sample.page "channels" [Sample.channel "C2" "My-Room"] ""])
              (snd (getChannel "My Room"
                 (Sample.world
                    [Sample.page "channels" [Sample.general] "c1";
                     Sample.page "channels" [Sample.channel "C2" "My-Room"] ""])))
              (Sample.channel "C2" "My-Room")) as [H | H].
  - vm_compute. reflexivity.
  - discriminate H.
  - exact H.
Defined.

Lemma scan_members_sound u elems sm x :
  scan_members u elems sm = Returned x ->
  x = sm \/ is_member_named u x = true.
Proof.
  induction elems as [|e rest IH]; simpl; intros H.
  - left. congruence.
  - unfold is_member_named, field.
    destruct e as [| | | | |l|o]; simpl in H; try discriminate.
    destruct (get_field o "profile") as [| | | | | |p] eqn:Hp; simpl in H;
      try discriminate.
    destruct (get_field p "display_name") as [| | | |d| |] eqn:Hd; simpl in H;
      try discriminate.
    destruct (Str.toLowerCase d =? Str.toLowerCase u) eqn:Ed.
    + right. injection H as <-. simpl. rewrite Hp. simpl. now rewrite Hd, Ed.
    + destruct (get_field o "name") as [| | | |n| |] eqn:Hn; simpl in H;
        try discriminate.
      destruct (Str.toLowerCase n =? Str.toLowerCase u) eqn:En.
      * right. injection H as <-. simpl. rewrite Hn, En. apply orb_true_r.
      * now apply IH.
Qed.

Lemma getUserInfo_loop_sound u fuel :
  forall parms cursor sm w x w',
    getUserInfo_loop fuel u parms cursor sm w = (Returned x, w') ->
    x = sm \/ is_member_named u x = true.
Proof.
  induction fuel as [|fuel IH]; intros parms cursor sm w x w'.
  - cbn. discriminate.
  - cbn [getUserInfo_loop]. unfold bind at 1. unfold constant at 1.
    unfold bind at 1. unfold http_write.
    destruct (pending w) as [|r rest]; [discriminate|].
    unfold JSON_parse. destruct (body r) as [b|]; [|discriminate].
    cbn [bind lift].
    destruct (prop b "ok") as [ok|]; [|discriminate].
    destruct (truthy ok); cbn [negb bind lift console_log ret].
    2: { intros [= <- _]. now left. }
    destruct (prop b "members") as [ms|]; [|discriminate].
    cbn [bind lift].
    destruct (scan_members u (for_in ms) sm) as [sm'|] eqn:Hscan;
      [|discriminate].
    apply scan_members_sound in Hscan.
    destruct (prop b "response_metadata") as [m|]; [|discriminate].
    cbn [bind lift].
    destruct (prop m "next_cursor") as [next|]; [|discriminate].
    destruct (truthy next); cbn [bind console_log ret].
    + intros H. apply IH in H. destruct H as [-> | H]; [exact Hscan | now right].
    + intros [= <- _]. exact Hscan.
Qed.

(** X4.  getUserInfo never returns a wrong member: what it returns is
    [null] or a record whose display name or handle is a string equal, in
    lower case, to the name asked for. *)
Theorem getUserInfo_returns_the_named_member (u : string) (w w' : World)
    (x : value) :
  getUserInfo u w = (Returned x, w') ->
  x = VNull \/ is_member_named u x = true.
Proof. unfold getUserInfo. apply getUserInfo_loop_sound. Qed.

Lemma getUserInfo_returns_the_named_member_witness :
  is_member_named "BOBBY" Sample.bob = true.
Proof.
  destruct (getUserInfo_returns_the_named_member "BOBBY"
              (Sample.world [Sample.page "members" [Sample.bot; Sample.bob] ""])
              (snd (getUserInfo "BOBBY"
                 (Sample.world [Sample.page "members" [Sample.bot; Sample.bob] ""])))
              Sample.bob) as [H | H].
  - vm_compute. reflexivity.
  - discriminate H.
  - exact H.
Defined.

(* ================================================================== *)
(** ** Lookups that find nothing *)
(* ================================================================== *)

Lemma getChannel_loop_not_found t pre :
  forall cursors fuel parms cursor w r post,
    Forall2 (advances (scan_channels t) "channels") pre cursors ->
    exhausts_channels t r ->
    pending w = (pre ++ r :: post)%list -> length pre < fuel ->
    exists w',
      getChannel_loop fuel t parms cursor VNull w = (Returned VNull, w')
      /\ scanned w w' post
           (list_requests "/api/channels.list?token=" (token_of w) parms
              cursor cursors).
Proof.
  induction pre as [|p pre IH];
    intros cursors fuel parms cursor w r post Hpre Hr Hp Hfuel;
    (destruct fuel as [|fuel]; [simpl in Hfuel; lia|]); simpl in Hp.
  - inversion Hpre; subst.
    destruct Hr as (b & Hb & Hok & Hscan & Hend).
    rewrite (getChannel_loop_step _ _ _ _ _ _ _ _ _ Hp Hb Hok). cbv zeta.
    rewrite Hscan. cbn [is_null andb].
    destruct Hend as [-> | (c & Hcur & Htc)].
    + cbn [is_undefined negb].
      eexists. split; [reflexivity|]. eapply scanned_one, Hp.
    + destruct (page_cursor_metadata _ _ Hcur) as [-> ->].
      cbn [negb]. rewrite Htc.
      eexists. split; [reflexivity|]. eapply scanned_one, Hp.
  - inversion Hpre as [|? c ? cs Hadv Hrest]; subst.
    rewrite (getChannel_loop_advance _ _ _ _ _ _ _ _ Hp Hadv).
    edestruct (IH cs fuel (next_parms parms cursor) c) as (w' & Hrun & Hsc);
      [exact Hrest | exact Hr | | | ].
    3: { exists w'. split; [exact Hrun|]. eapply scanned_more; [exact Hp|].
         exact Hsc. }
    + cbn. rewrite Hp. reflexivity.
    + simpl in Hfuel. lia.
Qed.

(** X5.  A channel lookup that runs out of pages.  When every page but the
    last sends the scan on with a cursor that is a primitive value, and the
    last has no match and no cursor (no [response_metadata], or a falsy
    [next_cursor]), getChannel returns [null] after one request per page,
    and leaves the answers after that page untouched. *)
Theorem getChannel_not_found (N : string) (w : World)
    (pre : list Response) (cursors : list value) (r : Response)
    (post : list Response) :
  Forall2 (advances (scan_channels (canonicalize N)) "channels") pre cursors ->
  exhausts_channels (canonicalize N) r ->
  pending w = (pre ++ r :: post)%list ->
  exists w',
    getChannel N w = (Returned VNull, w')
    /\ pending w' = post
    /\ length (issued w') = length (issued w) + S (length pre)
    /\ constants w' = constants w /\ store w' = store w.
Proof.
  intros Hpre Hr Hp.
  destruct (getChannel_loop_not_found (canonicalize N) pre cursors (budget w)
              "" VUndefined w r post Hpre Hr Hp)
    as (w' & Hrun & Hpend & Hiss & Hc & Hs).
  { unfold budget. rewrite Hp, length_app. simpl. lia. }
  exists w'. split; [exact Hrun|]. split; [exact Hpend|].
  split; [|split; assumption].
  rewrite Hiss, length_app, list_requests_length.
  now rewrite (Forall2_length _ _ _ Hpre).
Qed.

Lemma getChannel_not_found_witness :
  exists w',
    getChannel "nochannel"
      (Sample.world [Sample.page "channels" [Sample.general] "c1";
                     Sample.page "channels" [] "";
                     Sample.success])
    = (Returned VNull, w')
    /\ pending w' = [Sample.success]
    /\ length (issued w') = 2.
Proof.
  destruct (getChannel_not_found "nochannel"
              (Sample.world [Sample.page "channels" [Sample.general] "c1";
                             Sample.page "channels" [] "";
                             Sample.success])
              [Sample.page "channels" [Sample.general] "c1"]
              [VString "c1"] (Sample.page "channels" [] "") [Sample.success])
    as (w' & Hrun & Hpend & Hlen & _).
  - repeat constructor. eexists. repeat split; reflexivity.
  - eexists. repeat split; try reflexivity.
    right. eexists. split; reflexivity.
  - reflexivity.
  - exists w'. split; [exact Hrun|]. split; [exact Hpend | exact Hlen].
Defined.

Lemma getUserInfo_loop_not_found u pre :
  forall cursors fuel parms cursor w r post,
    Forall2 (advances (scan_members u) "members") pre cursors ->
    exhausts_members u r ->
    pending w = (pre ++ r :: post)%list -> length pre < fuel ->
    exists w',
      getUserInfo_loop fuel u parms cursor VNull w = (Returned VNull, w')
      /\ scanned w w' post
           (list_requests "/api/users.list?token=" (token_of w) parms
              cursor cursors).
Proof.
  induction pre as [|p pre IH];
    intros cursors fuel parms cursor w r post Hpre Hr Hp Hfuel;
    (destruct fuel as [|fuel]; [simpl in Hfuel; lia|]); simpl in Hp.
  - inversion Hpre; subst.
    destruct Hr as (b & c & Hb & Hok & Hscan & Hcur & Htc).
    rewrite (getUserInfo_loop_step _ _ _ _ _ _ _ _ _ Hp Hb Hok). cbv zeta.
    rewrite Hscan, Hcur, Htc.
    eexists. split; [reflexivity|]. eapply scanned_one, Hp.
  - inversion Hpre as [|? c ? cs Hadv Hrest]; subst.
    rewrite (getUserInfo_loop_advance _ _ _ _ _ _ _ _ Hp Hadv).
    edestruct (IH cs fuel (next_parms parms cursor) c) as (w' & Hrun & Hsc);
      [exact Hrest | exact Hr | | | ].
    3: { exists w'. split; [exact Hrun|]. eapply scanned_more; [exact Hp|].
         exact Hsc. }
    + cbn. rewrite Hp. reflexivity.
    + simpl in Hfuel. lia.
Qed.

(** X6.  A user lookup that runs out of pages.  When every page but the
    last sends the scan on with a cursor that is a primitive value, and the
    last has no match and a falsy cursor, getUserInfo returns [null] after
    one request per page. *)
Theorem getUserInfo_not_found (u : string) (w : World)
    (pre : list Response) (cursors : list value) (r : Response)
    (post : list Response) :
  Forall2 (advances (scan_members u) "members") pre cursors ->
  exhausts_members u r ->
  pending w = (pre ++ r :: post)%list ->
  exists w',
    getUserInfo u w = (Returned VNull, w')
    /\ pending w' = post
    /\ length (issued w') = length (issued w) + S (length pre)
    /\ constants w' = constants w /\ store w' = store w.
Proof.
  intros Hpre Hr Hp.
  destruct (getUserInfo_loop_not_found u pre cursors (budget w)
              "" VUndefined w r post Hpre Hr Hp)
    as (w' & Hrun & Hpend & Hiss & Hc & Hs).
  { unfold budget. rewrite Hp, length_app. simpl. lia. }
  exists w'. split; [exact Hrun|]. split; [exact Hpend|].
  split; [|split; assumption].
  rewrite Hiss, length_app, list_requests_length.
  now rewrite (Forall2_length _ _ _ Hpre).
Qed.

Lemma getUserInfo_not_found_witness :
  exists w',
    getUserInfo "carol"
      (Sample.world [Sample.page "members" [Sample.bob] "c1";
                     Sample.page "members" [Sample.bot] ""])
    = (Returned VNull, w')
    /\ pending w' = []
    /\ length (issued w') = 2.
Proof.
  destruct (getUserInfo_not_found "carol"
              (Sample.world [Sample.page "members" [Sample.bob] "c1";
                             Sample.page "members" [Sample.bot] ""])
              [Sample.page "members" [Sample.bob] "c1"]
              [VString "c1"] (Sample.page "members" [Sample.bot] "") [])
    as (w' & Hrun & Hpend & Hlen & _).
  - repeat constructor. eexists. repeat split; reflexivity.
  - do 2 eexists. repeat split; reflexivity.
  - reflexivity.
  - exists w'. split; [exact Hrun|]. split; [exact Hpend | exact Hlen].
Defined.

(* ================================================================== *)
(** ** What the listing requests carry *)
(* ================================================================== *)

Lemma string_app_nil_r (s : string) : s +:+ "" = s.
Proof.
  induction s as [|c r IH]; [reflexivity|].
  change (String c (r +:+ "") = String c r). now rewrite IH.
Qed.

Lemma string_app_assoc (s t v : string) : (s +:+ t) +:+ v = s +:+ (t +:+ v).
Proof.
  induction s as [|c r IH]; [reflexivity|].
  change (String c ((r +:+ t) +:+ v) = String c (r +:+ (t +:+ v))).
  now rewrite IH.
Qed.

(** With [limit] at 0, a truthy cursor adds its parameter and nothing
    else. *)
Lemma next_parms_cursor parms c :
  truthy c = true -> next_parms parms c = parms +:+ ("&cursor=" +:+ to_string c).
Proof.
  intros Hc. unfold next_parms. rewrite Hc. cbn [limit truthy Z.eqb negb].
  now rewrite string_app_nil_r.
Qed.

Lemma list_requests_paged api tok cursors :
  Forall (fun c => truthy c = true) cursors ->
  forall parms,
    list_requests api tok parms VUndefined cursors
    = map (fun k => list_request api tok (parms +:+ cursor_parms (firstn k cursors)))
          (seq 0 (S (length cursors))).
Proof.
  assert (Hgen : forall cs, Forall (fun c => truthy c = true) cs ->
            forall parms cursor,
              list_requests api tok parms cursor cs
              = map (fun k => list_request api tok
                                (next_parms parms cursor
                                 +:+ cursor_parms (firstn k cs)))
                    (seq 0 (S (length cs)))).
  { induction 1 as [|c cs Hc Hcs IH]; intros parms cursor.
    - simpl. now rewrite string_app_nil_r.
    - cbn [list_requests length]. rewrite IH.
      change (seq 0 (S (S (length cs)))) with (0 :: seq 1 (S (length cs))).
      rewrite <- seq_shift, map_cons, map_map.
      cbn [firstn cursor_parms]. rewrite string_app_nil_r. f_equal.
      apply map_ext. intros k.
      now rewrite (next_parms_cursor _ _ Hc), string_app_assoc. }
  intros Hcs parms. rewrite (Hgen _ Hcs). apply map_ext. intros k.
  unfold next_parms. cbn [limit truthy Z.eqb negb].
  now rewrite !string_app_nil_r.
Qed.

Lemma advances_truthy scan what pre cursors :
  Forall2 (advances scan what) pre cursors ->
  Forall (fun c => truthy c = true) cursors.
Proof.
  induction 1 as [|p c ps cs (b & _ & _ & _ & _ & Hc & _) _ IH]; constructor;
    assumption.
Qed.

(** X7.  The cursors pile up in the listing requests.  Both loops append to
    [parms] at every iteration and never reset it, so the request for the
    page after [k] cursors carries all [k] of them, oldest first, not only
    the last one: after the token come [&cursor=c1&cursor=c2...].  Shown
    for cursors that are primitive values, for a channel lookup that finds
    its target and for a user lookup that finds its target on a last
    page. *)
Theorem lookups_resend_earlier_cursors (w : World) (pre : list Response)
    (cursors : list value) (r : Response) (post : list Response) (e : value) :
  pending w = (pre ++ r :: post)%list ->
  (forall N,
      Forall2 (advances (scan_channels (canonicalize N)) "channels") pre cursors ->
      matches (scan_channels (canonicalize N)) "channels" r e ->
      exists w',
        getChannel N w = (Returned e, w')
        /\ issued w'
           = (issued w
              ++ paged_requests "/api/channels.list?token=" (token_of w) cursors)%list)
  /\ (forall u,
      Forall2 (advances (scan_members u) "members") pre cursors ->
      matches_at_end (scan_members u) "members" r e ->
      exists w',
        getUserInfo u w = (Returned e, w')
        /\ issued w'
           = (issued w
              ++ paged_requests "/api/users.list?token=" (token_of w) cursors)%list).
Proof.
  intros Hp. split.
  - intros N Hpre Hr.
    destruct (getChannel_found N w pre cursors r post e Hpre Hr Hp)
      as (w' & Hrun & _ & Hiss & _).
    exists w'. split; [exact Hrun|]. rewrite Hiss. f_equal.
    rewrite (list_requests_paged _ _ _ (advances_truthy _ _ _ _ Hpre)).
    reflexivity.
  - intros u Hpre Hr.
    destruct (getUserInfo_found_at_end u w pre cursors r post e Hpre Hr Hp)
      as (w' & Hrun & _ & Hiss & _).
    exists w'. split; [exact Hrun|]. rewrite Hiss. f_equal.
    rewrite (list_requests_paged _ _ _ (advances_truthy _ _ _ _ Hpre)).
    reflexivity.
Qed.

Lemma lookups_resend_earlier_cursors_witness :
  exists w',
    getChannel "ops"
      (Sample.world [Sample.page "channels" [Sample.general] "c1";
                     Sample.page "channels" [] "c2";
                     Sample.page "channels" [Sample.channel "C3" "ops"] ""])
    = (Returned (Sample.channel "C3" "ops"), w')
    /\ map path (issued w')
       = ["/api/channels.list?token=xoxb-1";
          "/api/channels.list?token=xoxb-1&cursor=c1";
          "/api/channels.list?token=xoxb-1&cursor=c1&cursor=c2"].
Proof.
  destruct (lookups_resend_earlier_cursors
              (Sample.world [Sample.page "channels" [Sample.general] "c1";
                             Sample.page "channels" [] "c2";
                             Sample.page "channels" [Sample.channel "C3" "ops"] ""])
              [Sample.page "channels" [Sample.general] "c1";
               Sample.page "channels" [] "c2"]
              [VString "c1"; VString "c2"]
              (Sample.page "channels" [Sample.channel "C3" "ops"] "") []
              (Sample.channel "C3" "ops") eq_refl) as [Hchan _].
  destruct (Hchan "ops") as (w' & Hrun & Hiss).
  - repeat constructor; eexists; repeat split; reflexivity.
  - eexists. repeat split; reflexivity.
  - exists w'. split; [exact Hrun|]. rewrite Hiss. reflexivity.
Defined.

(* ================================================================== *)
(** ** The user lookup after a match *)
(* ================================================================== *)

(** A scan that finds a member finds it whatever result it started
    with. *)
Lemma scan_members_found_anyway u elems e sm :
  scan_members u elems VNull = Returned e -> is_null e = false ->
  scan_members u elems sm = Returned e.
Proof.
  induction elems as [|x rest IH]; simpl; intros H Hnn.
  - injection H as <-. discriminate.
  - destruct (prop x "profile") as [p|]; simpl in H |- *; [|discriminate].
    destruct (prop p "display_name") as [d|]; simpl in H |- *; [|discriminate].
    destruct (call_toLowerCase d) as [s|]; simpl in H |- *; [|discriminate].
    destruct (s =? Str.toLowerCase u); [exact H|].
    destruct (prop x "name") as [n|]; simpl in H |- *; [|discriminate].
    destruct (call_toLowerCase n) as [s'|]; simpl in H |- *; [|discriminate].
    destruct (s' =? Str.toLowerCase u); [exact H | now apply IH].
Qed.

(** A scan that finds nobody leaves the result it started with. *)
Lemma scan_members_found_nobody u elems sm :
  scan_members u elems VNull = Returned VNull ->
  scan_members u elems sm = Returned sm.
Proof.
  induction elems as [|x rest IH]; simpl; intros H; [reflexivity|].
  destruct (prop x "profile") as [p|] eqn:Hp; simpl in H |- *; [|discriminate].
  destruct (prop p "display_name") as [d|]; simpl in H |- *; [|discriminate].
  destruct (call_toLowerCase d) as [s|]; simpl in H |- *; [|discriminate].
  destruct (s =? Str.toLowerCase u).
  { injection H as ->. discriminate. }
  destruct (prop x "name") as [n|]; simpl in H |- *; [|discriminate].
  destruct (call_toLowerCase n) as [s'|]; simpl in H |- *; [|discriminate].
  destruct (s' =? Str.toLowerCase u); [|now apply IH].
  injection H as ->. discriminate.
Qed.

(** X8.  Across pages the user lookup keeps the last match, not the first.
    When the first page has a match and a cursor (a primitive value), the
    second page is asked for: a match on it replaces the record of the
    first page, and without a match there the record of the first page is
    what getUserInfo returns.  Two requests are sent either way. *)
Theorem getUserInfo_keeps_last_match (u : string) (w : World)
    (r1 r2 : Response) (post : list Response) (e1 c : value) :
  matches_on (scan_members u) "members" r1 e1 c ->
  pending w = r1 :: r2 :: post ->
  (forall e2,
      matches_at_end (scan_members u) "members" r2 e2 ->
      exists w',
        getUserInfo u w = (Returned e2, w')
        /\ scanned w w' post
             (list_requests "/api/users.list?token=" (token_of w) ""
                VUndefined [c]))
  /\ (exhausts_members u r2 ->
      exists w',
        getUserInfo u w = (Returned e1, w')
        /\ scanned w w' post
             (list_requests "/api/users.list?token=" (token_of w) ""
                VUndefined [c])).
Proof.
  intros (b1 & Hb1 & Hok1 & Hscan1 & Hnn1 & Hcur1 & Htc1 & _) Hp.
  assert (Hfirst :
    getUserInfo u w
    = getUserInfo_loop (S (S (length post))) u (next_parms "" VUndefined) c e1
        (logged ("Next Cursor: " +:+ to_string VUndefined)
           (sent (list_request "/api/users.list?token=" (token_of w)
                    (next_parms "" VUndefined)) w))).
  { unfold getUserInfo, budget. rewrite Hp. simpl length.
    rewrite (getUserInfo_loop_step _ _ _ _ _ _ _ _ _ Hp Hb1 Hok1). cbv zeta.
    now rewrite Hscan1, Hcur1, Htc1. }
  assert (Hp2 : pending
                  (logged ("Next Cursor: " +:+ to_string VUndefined)
                     (sent (list_request "/api/users.list?token=" (token_of w)
                              (next_parms "" VUndefined)) w))
                = r2 :: post) by (cbn; now rewrite Hp).
  split.
  - intros e2 (b2 & c2 & Hb2 & Hok2 & Hscan2 & Hnn2 & Hcur2 & Htc2).
    rewrite Hfirst.
    rewrite (getUserInfo_loop_step _ _ _ _ _ _ _ _ _ Hp2 Hb2 Hok2). cbv zeta.
    rewrite (scan_members_found_anyway _ _ _ _ Hscan2 Hnn2), Hcur2, Htc2.
    eexists. split; [reflexivity|].
    eapply scanned_more; [exact Hp|]. eapply scanned_one, Hp2.
  - intros (b2 & c2 & Hb2 & Hok2 & Hscan2 & Hcur2 & Htc2).
    rewrite Hfirst.
    rewrite (getUserInfo_loop_step _ _ _ _ _ _ _ _ _ Hp2 Hb2 Hok2). cbv zeta.
    rewrite (scan_members_found_nobody _ _ _ Hscan2), Hcur2, Htc2.
    eexists. split; [reflexivity|].
    eapply scanned_more; [exact Hp|]. eapply scanned_one, Hp2.
Qed.

Lemma getUserInfo_keeps_last_match_witness :
  exists w',
    getUserInfo "xmatters"
      (Sample.world
         [Sample.page "members" [Sample.member "U2" "ops" "xMatters"] "c1";
          Sample.page "members" [Sample.bob; Sample.bot] ""])
    = (Returned Sample.bot, w')
    /\ pending w' = [].
Proof.
  destruct (getUserInfo_keeps_last_match "xmatters"
              (Sample.world
                 [Sample.page "members" [Sample.member "U2" "ops" "xMatters"] "c1";
                  Sample.page "members" [Sample.bob; Sample.bot] ""])
              (Sample.page "members" [Sample.member "U2" "ops" "xMatters"] "c1")
              (Sample.page "members" [Sample.bob; Sample.bot] "") []
              (Sample.member "U2" "ops" "xMatters") (VString "c1"))
    as [Hlater _].
  - eexists. repeat split; reflexivity.
  - reflexivity.
  - destruct (Hlater Sample.bot) as (w' & Hrun & Hpend & _).
    + do 2 eexists. repeat split; reflexivity.
    + exists w'. split; [exact Hrun | exact Hpend].
Defined.

(* ================================================================== *)
(** ** A page without response_metadata *)
(* ================================================================== *)

(** X9.  The two lookups differ on a page that has no [response_metadata].
    getChannel tests for it and ends the scan with what the page gave.
    getUserInfo reads [response_metadata.next_cursor] without a test and
    throws a TypeError, even when the page had the user; the request for
    the page is the only one sent. *)
Theorem lookups_on_page_without_metadata (w : World) (r : Response)
    (post : list Response) (b : value) :
  pending w = r :: post -> body r = Some b -> page_ok b = true ->
  field b "response_metadata" = VUndefined ->
  (forall N x,
      scan_channels (canonicalize N) (for_in (field b "channels")) VNull
      = Returned x ->
      exists line,
        getChannel N w
        = (Returned x,
           logged line
             (sent (list_request "/api/channels.list?token=" (token_of w) "") w)))
  /\ (forall u x,
      scan_members u (for_in (field b "members")) VNull = Returned x ->
      getUserInfo u w
      = (Thrown TypeError,
         sent (list_request "/api/users.list?token=" (token_of w) "") w)).
Proof.
  intros Hp Hb Hok Hmeta. split.
  - intros N x Hscan. unfold getChannel, budget. rewrite Hp. simpl length.
    rewrite (getChannel_loop_step _ _ _ _ _ _ _ _ _ Hp Hb Hok). cbv zeta.
    rewrite Hscan, Hmeta. cbn [is_undefined negb]. rewrite andb_false_r.
    eexists. reflexivity.
  - intros u x Hscan. unfold getUserInfo, budget. rewrite Hp. simpl length.
    rewrite (getUserInfo_loop_step _ _ _ _ _ _ _ _ _ Hp Hb Hok). cbv zeta.
    rewrite Hscan.
    assert (Hcur : page_cursor b = Thrown TypeError).
    { destruct (page_ok_prop _ Hok) as (ok & Hprop & _).
      unfold page_cursor.
      rewrite (prop_field _ _ _ "response_metadata" Hprop), Hmeta.
      reflexivity. }
    rewrite Hcur. reflexivity.
Qed.

Lemma lookups_on_page_without_metadata_witness :
  (exists line,
      getChannel "general"
        (Sample.world
           [mkResponse 200
              (Some (VObject [("ok", VBool true);
                              ("channels", VArray [Sample.general]);
                              ("members", VArray [Sample.bob])]))])
      = (Returned Sample.general,
         logged line
           (sent (list_request "/api/channels.list?token=" (VString "xoxb-1") "")
              (Sample.world
                 [mkResponse 200
                    (Some (VObject [("ok", VBool true);
                                    ("channels", VArray [Sample.general]);
                                    ("members", VArray [Sample.bob])]))]))))
  /\ fst (getUserInfo "bob"
            (Sample.world
               [mkResponse 200
                  (Some (VObject [("ok", VBool true);
                                  ("channels", VArray [Sample.general]);
                                  ("members", VArray [Sample.bob])]))]))
     = Thrown TypeError.
Proof.
  destruct (lookups_on_page_without_metadata
              (Sample.world
                 [mkResponse 200
                    (Some (VObject [("ok", VBool true);
                                    ("channels", VArray [Sample.general]);
                                    ("members", VArray [Sample.bob])]))])
              _ _ _ eq_refl eq_refl eq_refl eq_refl) as [Hchan Huser].
  split.
  - apply (Hchan "general" Sample.general). reflexivity.
  - rewrite (Huser "bob" Sample.bob); reflexivity.
Defined.

(* ================================================================== *)
(** ** The query string *)
(* ================================================================== *)

Section QueryString.

Import Str.

Lemma all_chars_app p s t :
  all_chars p (s +:+ t) = all_chars p s && all_chars p t.
Proof.
  induction s as [|c r IH]; [reflexivity|].
  change (all_chars p (String c (r +:+ t))
          = all_chars p (String c r) && all_chars p t).
  simpl. now rewrite IH, andb_assoc.
Qed.

Lemma count_char_app c s t :
  count_char c (s +:+ t) = count_char c s + count_char c t.
Proof.
  induction s as [|d r IH]; [reflexivity|].
  change (count_char c (String d (r +:+ t))
          = count_char c (String d r) + count_char c t).
  simpl. rewrite IH. lia.
Qed.

Lemma all_chars_weaken (p q : ascii -> bool) s :
  (forall c, p c = true -> q c = true) ->
  all_chars p s = true -> all_chars q s = true.
Proof.
  intros Hpq. induction s as [|c r IH]; simpl; [reflexivity|].
  intros [Hc Hr]%andb_prop. now rewrite (Hpq _ Hc), IH.
Qed.

Lemma count_char_absent p c s :
  all_chars p s = true -> p c = false -> count_char c s = 0.
Proof.
  intros Hs Hc. induction s as [|d r IH]; simpl in *; [reflexivity|].
  apply andb_prop in Hs as [Hd Hr].
  destruct (Ascii.eqb d c) eqn:E.
  - apply Ascii.eqb_eq in E. congruence.
  - now rewrite IH.
Qed.

Lemma encode_char_encoded c : all_chars encoded_char (encode_char c) = true.
Proof. destruct c as [[] [] [] [] [] [] [] []]; vm_compute; reflexivity. Qed.

Lemma encode_encoded s : all_chars encoded_char (encode s) = true.
Proof.
  induction s as [|c r IH]; simpl; [reflexivity|].
  now rewrite all_chars_app, encode_char_encoded, IH.
Qed.

(** One [key=value] pair of the query string. *)
Let pair_text (kv : string * value) : string :=
  encodeURIComponent (VString (fst kv)) +:+ "=" +:+ encodeURIComponent (snd kv).

Lemma pair_text_shape kv :
  all_chars query_char (pair_text kv) = true
  /\ count_char "=" (pair_text kv) = 1
  /\ count_char "&" (pair_text kv) = 0.
Proof.
  unfold pair_text, encodeURIComponent.
  assert (Hq : forall s, all_chars query_char (encode s) = true).
  { intros s. apply (all_chars_weaken encoded_char); [|apply encode_encoded].
    intros c Hc. unfold query_char. now rewrite Hc. }
  assert (Hz : forall c s, encoded_char c = false -> count_char c (encode s) = 0).
  { intros c s Hc. eapply count_char_absent; [apply encode_encoded | exact Hc]. }
  repeat split.
  - rewrite !all_chars_app, !Hq. reflexivity.
  - rewrite !count_char_app, !Hz by reflexivity. reflexivity.
  - rewrite !count_char_app, !Hz by reflexivity. reflexivity.
Qed.

Lemma join_pairs_shape (l : list (string * value)) :
  all_chars query_char (join "&" (map pair_text l)) = true
  /\ count_char "=" (join "&" (map pair_text l)) = length l
  /\ count_char "&" (join "&" (map pair_text l)) = pred (length l).
Proof.
  induction l as [|kv l IH]; [repeat split|].
  destruct (pair_text_shape kv) as (Ha & He & Hn).
  destruct l as [|kv' l'].
  - simpl. rewrite Ha, He, Hn. repeat split.
  - destruct IH as (IHa & IHe & IHn).
    change (join "&" (map pair_text (kv :: kv' :: l')))
      with (pair_text kv +:+ "&" +:+ join "&" (map pair_text (kv' :: l'))).
    rewrite !all_chars_app, !count_char_app, Ha, He, Hn, IHa, IHe, IHn.
    repeat split.
Qed.

(** X10.  jsonToQueryString never lets a character of a key or a value
    act as a separator.  Its result is made of the characters that
    [encodeURIComponent] produces and of the separators; it has one
    question mark, one equals sign per property of the object and one
    ampersand between two properties, so that it splits back into as many
    [key=value] pairs as the object has properties.  For the empty object
    it is the question mark alone. *)
Theorem jsonToQueryString_shape (json : object) :
  all_chars query_char (jsonToQueryString json) = true
  /\ count_char "?" (jsonToQueryString json) = 1
  /\ count_char "=" (jsonToQueryString json) = length json
  /\ count_char "&" (jsonToQueryString json) = pred (length json)
  /\ jsonToQueryString [] = "?".
Proof.
  assert (Hmap : map (fun '(key, v) =>
                        encodeURIComponent (VString key) +:+ "="
                        +:+ encodeURIComponent v) json
                 = map pair_text json).
  { apply map_ext. now intros [k v]. }
  unfold jsonToQueryString. rewrite Hmap.
  destruct (join_pairs_shape json) as (Ha & He & Hn).
  assert (Hq : count_char "?" (join "&" (map pair_text json)) = 0).
  { clear -json. induction json as [|kv l IH]; [reflexivity|].
    assert (Hk : count_char "?" (pair_text kv) = 0).
    { unfold pair_text, encodeURIComponent.
      rewrite !count_char_app.
      rewrite !(count_char_absent encoded_char "?" _ (encode_encoded _) eq_refl).
      reflexivity. }
    destruct l as [|kv' l']; [simpl; now rewrite Hk|].
    change (join "&" (map pair_text (kv :: kv' :: l')))
      with (pair_text kv +:+ "&" +:+ join "&" (map pair_text (kv' :: l'))).
    rewrite !count_char_app, Hk, IH. reflexivity. }
  rewrite all_chars_app, !count_char_app, Ha, He, Hn, Hq.
  repeat split.
Qed.

End QueryString.

(* ================================================================== *)
(** ** Posting messages *)
(* ================================================================== *)

(** X11.  postMessage sends the payload as it has rewritten it: the one
    request it makes has the caller's object, with the token and with a
    truthy [attachments] in its JSON text, both as query string and as
    written body.  It returns the parsed answer when its [ok] is truthy and
    [null] when it is not.  This is for a payload that the script can
    print: the numbers inside [attachments] are safe integers, and every
    property of the payload as sent holds a primitive value. *)
Theorem postMessage_sends_what_it_wrote (payload : loc) (o : object)
    (w : World) (r : Response) (rest : list Response) (b ok : value) :
  store w !! payload = Some o ->
  exact (get_field o "attachments") = true ->
  primitive_fields (posted (token_of w) o) = true ->
  pending w = r :: rest -> body r = Some b -> prop b "ok" = Returned ok ->
  exists w',
    postMessage payload w = (Returned (if truthy ok then b else VNull), w')
    /\ issued w' = (issued w ++ [post_request (posted (token_of w) o)])%list
    /\ pending w' = rest.
Proof.
  intros Ho _ _ Hp Hb Hok.
  unfold postMessage. unfold bind at 1. unfold constant at 1.
  fold (token_of w). unfold bind at 1. unfold obj_set at 1. rewrite Ho.
  unfold bind at 1. unfold obj_read at 1. cbn [store].
  rewrite lookup_insert_eq. unfold posted.
  set (o1 := set_field o "token" (token_of w)). cbv zeta.
  destruct (truthy (get_field o1 "attachments")).
  - unfold bind at 1. unfold obj_set at 1. cbn [store].
    rewrite lookup_insert_eq.
    unfold bind at 1. unfold obj_read at 1. cbn [store].
    rewrite lookup_insert_eq.
    unfold bind at 1. erewrite http_write_answer by (cbn; exact Hp).
    unfold JSON_parse. rewrite Hb. cbn [bind lift]. rewrite Hok.
    destruct (truthy ok); cbn [negb bind console_log ret];
      eexists; (split; [reflexivity|]); cbn; rewrite Hp; split; reflexivity.
  - unfold bind at 1. cbn [ret].
    unfold bind at 1. unfold obj_read at 1. cbn [store].
    rewrite lookup_insert_eq.
    unfold bind at 1. erewrite http_write_answer by (cbn; exact Hp).
    unfold JSON_parse. rewrite Hb. cbn [bind lift]. rewrite Hok.
    destruct (truthy ok); cbn [negb bind console_log ret];
      eexists; (split; [reflexivity|]); cbn; rewrite Hp; split; reflexivity.
Qed.

Lemma postMessage_sends_what_it_wrote_witness :
  exists w',
    postMessage 0
      (Sample.holding
         [("channel", VString "#general");
          ("attachments", VArray [VObject [("text", VString "hi")]])]
         [Sample.success])
    = (Returned (VObject [("ok", VBool true)]), w')
    /\ map path (issued w')
       = ["/chat.postMessage?channel=%23general&attachments=%5B%7B%22text%22%3A%22hi%22%7D%5D&token=xoxb-1"]
    /\ pending w' = [].
Proof.
  destruct (postMessage_sends_what_it_wrote 0
              [("channel", VString "#general");
               ("attachments", VArray [VObject [("text", VString "hi")]])]
              (Sample.holding
                 [("channel", VString "#general");
                  ("attachments", VArray [VObject [("text", VString "hi")]])]
                 [Sample.success])
              Sample.success [] (VObject [("ok", VBool true)]) (VBool true)
              eq_refl eq_refl eq_refl eq_refl eq_refl eq_refl)
    as (w' & Hrun & Hiss & Hpend).
  exists w'. split; [exact Hrun|]. split; [|exact Hpend].
  rewrite Hiss. vm_compute. reflexivity.
Defined.

(** X12.  postMessageWithFields without a user, for a channel whose [id]
    is a primitive value.  The text is appended to a [text] property that
    was never set, so a non-empty text is sent with the word [undefined] in
    front of it; with an empty text the message has no [text] at all.  One
    request is sent in both cases. *)
Theorem postMessageWithFields_without_user (text : string)
    (channel user : value) (w : World) (cid : value) :
  prop channel "id" = Returned cid -> primitive cid = true ->
  truthy user = false ->
  issued (snd (postMessageWithFields text channel user w))
  = (issued w
     ++ [message_request
           (if truthy (VString text)
            then [("channel", cid);
                  ("text", VString ("undefined" +:+ text));
                  ("token", token_of w)]
            else [("channel", cid); ("token", token_of w)])])%list.
Proof.
  intros Hcid _ Huser.
  unfold postMessageWithFields. rewrite Hcid, Huser.
  assert (Hrest : forall payload : object,
             issued (snd ((let! slackResponse :=
                             http_write
                               {| endpoint := "Slack"; method := "POST";
                                  path := "/api/chat.postMessage"
                                          +:+ jsonToQueryString payload;
                                  headers := []; written := Some payload |} in
                           let! slackBody := lift (JSON_parse slackResponse) in
                           let! ok := lift (prop slackBody "ok") in
                           if negb (truthy ok)
                           then let! _ := console_log "Error posting message!" in
                                ret VNull
                           else ret slackBody) w))
             = (issued w ++ [message_request payload])%list).
  { intros payload. unfold bind at 1. unfold http_write.
    destruct (pending w) as [|r rest]; [reflexivity|].
    unfold JSON_parse. destruct (body r) as [b|]; [|reflexivity].
    cbn [bind lift].
    destruct (prop b "ok") as [ok|]; [|reflexivity].
    destruct (truthy ok); reflexivity. }
  destruct (truthy (VString text));
    cbn [bind lift ret set_field get_field String.eqb Ascii.eqb Bool.eqb
         to_string constant];
    apply Hrest.
Qed.

Lemma postMessageWithFields_without_user_witness :
  map path
    (issued (snd (postMessageWithFields " is down" Sample.general VNull
                    (Sample.world [Sample.success]))))
  = ["/api/chat.postMessage?channel=C1&text=undefined%20is%20down&token=xoxb-1"].
Proof.
  rewrite (postMessageWithFields_without_user " is down" Sample.general VNull
             (Sample.world [Sample.success]) (VString "C1") eq_refl eq_refl
             eq_refl).
  vm_compute. reflexivity.
Defined.

(* ================================================================== *)
(** ** channelInvite beyond the already-in-channel answer *)
(* ================================================================== *)

(** X13.  channelInvite on a success answer, for records whose [id]s are
    primitive values, returns the parsed answer; the invite is the only
    request, and no message is posted. *)
Theorem channelInvite_success (slackUser slackChannel : value) (w : World)
    (r : Response) (rest : list Response) (b ok cid uid : value) :
  prop slackChannel "id" = Returned cid -> primitive cid = true ->
  prop slackUser "id" = Returned uid -> primitive uid = true ->
  pending w = r :: rest -> body r = Some b ->
  prop b "ok" = Returned ok -> truthy ok = true ->
  channelInvite slackUser slackChannel w
  = (Returned b, sent (invite_request (token_of w) cid uid) w).
Proof.
  intros Hcid _ Huid _ Hp Hb Hok Ht.
  unfold channelInvite. rewrite Hcid, Huid.
  cbn [bind lift constant set_field String.eqb Ascii.eqb Bool.eqb].
  unfold bind at 1. erewrite http_write_answer by exact Hp.
  unfold JSON_parse. rewrite Hb. cbn [bind lift].
  rewrite Hok, Ht. reflexivity.
Qed.

Lemma channelInvite_success_witness :
  Sample.observe
    (channelInvite Sample.bob Sample.general
       (Sample.world [Sample.success; Sample.success]))
  = (Returned (VObject [("ok", VBool true)]), [Sample.success],
     ["/api/channels.invite?channel=C1&user=U1&token=xoxb-1"]).
Proof.
  rewrite (channelInvite_success Sample.bob Sample.general
             (Sample.world [Sample.success; Sample.success])
             Sample.success [Sample.success] (VObject [("ok", VBool true)])
             (VBool true) (VString "C1") (VString "U1")
             eq_refl eq_refl eq_refl eq_refl eq_refl eq_refl eq_refl eq_refl).
  vm_compute. reflexivity.
Defined.

(** X14.  channelInvite on a failure answer, for records whose [id]s are
    primitive values and an answer whose [error] is a primitive value.
    For the service account (a user whose name is "xmatters" in any case)
    every failure, whatever its error code, ends in [null] with the console
    line about the user being in the channel already.  For another user a
    failure other than [already_in_channel] ends in [null] with the line
    "Error posting message".  In both cases the invite is the only
    request.  When the user record has no string [name], a failure answer
    makes channelInvite throw a TypeError. *)
Theorem channelInvite_failure (slackUser slackChannel : value) (w : World)
    (r : Response) (rest : list Response) (b ok cid uid : value) :
  prop slackChannel "id" = Returned cid -> primitive cid = true ->
  prop slackUser "id" = Returned uid -> primitive uid = true ->
  pending w = r :: rest -> body r = Some b ->
  prop b "ok" = Returned ok -> truthy ok = false ->
  primitive (field b "error") = true ->
  let w1 := sent (invite_request (token_of w) cid uid) w in
  (forall name,
      prop slackUser "name" = Returned (VString name) ->
      (Str.toLowerCase name =? "xmatters") = true ->
      channelInvite slackUser slackChannel w
      = (Returned VNull,
         logged "Disregarding xMatters user already exists in channel" w1))
  /\ (forall name,
      prop slackUser "name" = Returned (VString name) ->
      (Str.toLowerCase name =? "xmatters") = false ->
      loose_eq_lit (field b "error") "already_in_channel" = false ->
      channelInvite slackUser slackChannel w
      = (Returned VNull, logged "Error posting message" w1))
  /\ (forall name,
      prop slackUser "name" = Returned name ->
      call_toLowerCase name = Thrown TypeError ->
      channelInvite slackUser slackChannel w = (Thrown TypeError, w1)).
Proof.
  intros Hcid _ Huid _ Hp Hb Hok Ht _ w1.
  assert (Hrun : channelInvite slackUser slackChannel w
    = (let! first :=
         if loose_eq_lit (field b "error") "already_in_channel" then
           let! name := lift (prop slackUser "name") in
           let! lowered := lift (call_toLowerCase name) in
           ret (negb (lowered =? "xmatters"))
         else ret false in
       if first then
         postMessageWithFields " already in channel" slackChannel slackUser
       else
         let! name := lift (prop slackUser "name") in
         let! lowered := lift (call_toLowerCase name) in
         if lowered =? "xmatters" then
           let! _ :=
             console_log "Disregarding xMatters user already exists in channel" in
           ret VNull
         else
           let! _ := console_log "Error posting message" in
           ret VNull) w1).
  { unfold channelInvite. rewrite Hcid, Huid.
    cbn [bind lift constant set_field String.eqb Ascii.eqb Bool.eqb].
    unfold bind at 1. erewrite http_write_answer by exact Hp.
    unfold JSON_parse. rewrite Hb. cbn [bind lift].
    rewrite Hok, Ht. cbn [negb].
    rewrite (prop_field _ _ _ "error" Hok). reflexivity. }
  rewrite Hrun. clear Hrun. split; [|split].
  - intros name Hname Hx.
    destruct (loose_eq_lit (field b "error") "already_in_channel");
      rewrite Hname; cbn [bind lift call_toLowerCase ret]; rewrite ?Hx;
      cbn [negb bind lift call_toLowerCase ret]; rewrite ?Hx; reflexivity.
  - intros name Hname Hx Herr. rewrite Herr, Hname.
    cbn [bind lift call_toLowerCase ret]. rewrite Hx. reflexivity.
  - intros name Hname Hthrow.
    destruct (loose_eq_lit (field b "error") "already_in_channel");
      rewrite Hname; unfold bind, lift, ret; cbn beta iota;
      rewrite Hthrow; reflexivity.
Qed.

Lemma channelInvite_failure_witness :
  Sample.observe
    (channelInvite Sample.bot Sample.general
       (Sample.world [Sample.failure "channel_not_found"]))
  = (Returned VNull, [],
     ["/api/channels.invite?channel=C1&user=U9&token=xoxb-1"])
  /\ console
       (snd (channelInvite Sample.bot Sample.general
               (Sample.world [Sample.failure "channel_not_found"])))
     = ["Disregarding xMatters user already exists in channel"].
Proof.
  destruct (channelInvite_failure Sample.bot Sample.general
              (Sample.world [Sample.failure "channel_not_found"])
              (Sample.failure "channel_not_found") []
              (VObject [("ok", VBool false);
                        ("error", VString "channel_not_found")])
              (VBool false) (VString "C1") (VString "U9")
              eq_refl eq_refl eq_refl eq_refl eq_refl eq_refl eq_refl eq_refl
              eq_refl) as (Hbot & _ & _).
  rewrite (Hbot "xMatters" eq_refl eq_refl).
  split; vm_compute; reflexivity.
Defined.

(* ================================================================== *)
(** ** Room history and archival when the channel is found *)
(* ================================================================== *)

(** X15.  getRoomHistory on a channel that is found and a history answer
    that is ok returns the answer's [messages] as they came, after one
    history request.  The request names the channel by the [id] of the
    record found; [count], [latest] and [oldest] are left out of it when
    falsy (so a count of 0 is left out as well).  The [id] and the three
    bounds are primitive values, which the script can print into the
    path. *)
Theorem getRoomHistory_returns_messages (channelName : string)
    (count latest oldest : value) (w w1 : World) (channel : value)
    (r : Response) (rest : list Response) (b : value) :
  getChannel channelName w = (Returned channel, w1) ->
  is_null channel = false ->
  primitive (field channel "id") = true ->
  primitive count = true -> primitive latest = true ->
  primitive oldest = true ->
  pending w1 = r :: rest -> body r = Some b -> page_ok b = true ->
  getRoomHistory channelName count latest oldest w
  = (Returned (field b "messages"),
     sent (history_request (token_of w1) channel count latest oldest) w1)
  /\ (truthy count = false -> truthy latest = false -> truthy oldest = false ->
      path (history_request (token_of w1) channel count latest oldest)
      = "/api/channels.history?token=" +:+ to_string (token_of w1)
        +:+ "&channel=" +:+ to_string (field channel "id")).
Proof.
  intros Hlookup Hnn _ _ _ _ Hp Hb [ok [Hok Ht]]%page_ok_prop. split.
  - destruct (getChannel_result _ _ _ _ Hlookup) as [-> | [o ->]];
      [discriminate|].
    unfold getRoomHistory, bind at 1. rewrite Hlookup.
    cbn [is_null bind lift prop constant]. unfold bind at 1.
    erewrite http_write_answer by exact Hp.
    unfold JSON_parse. rewrite Hb. cbn [bind lift].
    rewrite Hok, Ht. cbn [negb].
    rewrite (prop_field _ _ _ "messages" Hok). reflexivity.
  - intros Hc Hl Ho. cbn [history_request path]. rewrite Hc, Hl, Ho.
    now rewrite !string_app_nil_r.
Qed.

Lemma getRoomHistory_returns_messages_witness :
  Sample.observe
    (getRoomHistory "General" (VNumber 0) VUndefined (VString "1700000000.5")
       (Sample.world
          [Sample.page "channels" [Sample.general] "";
           mkResponse 200
             (Some (VObject [("ok", VBool true);
                             ("messages", VArray [VString "m2"; VString "m1"])]))]))
  = (Returned (VArray [VString "m2"; VString "m1"]), [],
     ["/api/channels.list?token=xoxb-1";
      "/api/channels.history?token=xoxb-1&channel=C1&oldest=1700000000.5"]).
Proof.
  destruct (getRoomHistory_returns_messages "General" (VNumber 0) VUndefined
              (VString "1700000000.5")
              (Sample.world
                 [Sample.page "channels" [Sample.general] "";
                  mkResponse 200
                    (Some (VObject [("ok", VBool true);
                                    ("messages",
                                     VArray [VString "m2"; VString "m1"])]))])
              (snd (getChannel "General"
                 (Sample.world
                    [Sample.page "channels" [Sample.general] "";
                     mkResponse 200
                       (Some (VObject [("ok", VBool true);
                                       ("messages",
                                        VArray [VString "m2"; VString "m1"])]))])))
              Sample.general
              (mkResponse 200
                 (Some (VObject [("ok", VBool true);
                                 ("messages",
                                  VArray [VString "m2"; VString "m1"])])))
              []
              (VObject [("ok", VBool true);
                        ("messages", VArray [VString "m2"; VString "m1"])]))
    as [-> _]; try reflexivity; vm_compute; reflexivity.
Defined.

(** X16.  archiveChannel does not look at the answer.  When its lookup,
    which is the lookup of the canonical form of the name, finds a record
    whose [id] is a primitive value, one archive request goes out for that
    [id], and the call returns [undefined] for every answer that is JSON, a
    failure envelope included; an answer that is not JSON makes it throw a
    SyntaxError. *)
Theorem archiveChannel_ignores_answer (channelName : string) (w w1 : World)
    (channel : value) (r : Response) (rest : list Response) :
  getChannel (canonicalize channelName) w = (Returned channel, w1) ->
  is_null channel = false ->
  primitive (field channel "id") = true ->
  pending w1 = r :: rest ->
  archiveChannel channelName w
  = (match body r with
     | Some _ => Returned VUndefined
     | None => Thrown SyntaxError
     end,
     sent (archive_request (token_of w1) channel) w1).
Proof.
  intros Hlookup Hnn _ Hp.
  destruct (getChannel_result _ _ _ _ Hlookup) as [-> | [o ->]];
    [discriminate|].
  unfold archiveChannel, bind at 1.
  rewrite Hlookup.
  unfold bind at 1. unfold constant at 1. fold (token_of w1).
  cbn [bind lift prop]. unfold bind at 1.
  erewrite http_write_answer by exact Hp.
  unfold JSON_parse. destruct (body r); reflexivity.
Qed.

Lemma archiveChannel_ignores_answer_witness :
  Sample.observe
    (archiveChannel "General"
       (Sample.world [Sample.page "channels" [Sample.general] "";
                      Sample.failure "already_archived"]))
  = (Returned VUndefined, [],
     ["/api/channels.list?token=xoxb-1";
      "/api/channels.archive?token=xoxb-1&channel=C1"]).
Proof.
  rewrite (archiveChannel_ignores_answer "General"
             (Sample.world [Sample.page "channels" [Sample.general] "";
                            Sample.failure "already_archived"])
             (snd (getChannel (canonicalize "General")
                (Sample.world [Sample.page "channels" [Sample.general] "";
                               Sample.failure "already_archived"])))
             Sample.general (Sample.failure "already_archived") []);
    vm_compute; reflexivity.
Defined.

(* ================================================================== *)
(** ** The team *)
(* ================================================================== *)

(** X17.  getTeam sends one request, to [/team.info] (without the [/api]
    prefix of the other calls), and returns the answer's [team] when its
    [ok] is truthy ([undefined] when the answer has no team) and [null]
    when it is not.  Nothing is printed. *)
Theorem getTeam_result (w : World) (r : Response) (rest : list Response)
    (b ok : value) :
  pending w = r :: rest -> body r = Some b -> prop b "ok" = Returned ok ->
  getTeam w
  = (Returned (if truthy ok then field b "team" else VNull),
     sent (team_request (token_of w)) w).
Proof.
  intros Hp Hb Hok.
  unfold getTeam, bind at 1. unfold constant at 1. fold (token_of w).
  unfold bind at 1. erewrite http_write_answer by exact Hp.
  unfold JSON_parse. rewrite Hb. cbn [bind lift]. rewrite Hok.
  destruct (truthy ok); [|reflexivity].
  now rewrite (prop_field _ _ _ "team" Hok).
Qed.

Lemma getTeam_result_witness :
  Sample.observe
    (getTeam
       (Sample.world
          [mkResponse 200
             (Some (VObject [("ok", VBool true);
                             ("team", VObject [("id", VString "T1");
                                               ("name", VString "acme")])]))]))
  = (Returned (VObject [("id", VString "T1"); ("name", VString "acme")]), [],
     ["/team.info?token=xoxb-1"])
  /\ fst (getTeam (Sample.world [Sample.failure "invalid_auth"])) = Returned VNull.
Proof.
  split.
  - rewrite (getTeam_result
               (Sample.world
                  [mkResponse 200
                     (Some (VObject [("ok", VBool true);
                                     ("team", VObject [("id", VString "T1");
                                                       ("name", VString "acme")])]))])
               _ _ _ _ eq_refl eq_refl eq_refl).
    vm_compute. reflexivity.
  - rewrite (getTeam_result (Sample.world [Sample.failure "invalid_auth"])
               _ _ _ _ eq_refl eq_refl eq_refl).
    reflexivity.
Defined.

(* ================================================================== *)
(** ** inviteToChannel with and without identifiers *)
(* ================================================================== *)

(** X18.  inviteToChannel with both identifiers given, as truthy primitive
    values, makes no lookup: its one request carries the two identifiers as
    they were passed, and the transport's answer is returned as it is,
    whatever it says. *)
Theorem inviteToChannel_with_ids (userName channelName : string)
    (userId channelId : value) (w : World) (r : Response)
    (rest : list Response) :
  truthy channelId = true -> primitive channelId = true ->
  truthy userId = true -> primitive userId = true ->
  pending w = r :: rest ->
  inviteToChannel userName channelName userId channelId w
  = (Returned (Some r),
     sent (basic_invite_request (token_of w) channelId userId) w).
Proof.
  intros Hc _ Hu _ Hp. unfold inviteToChannel. rewrite Hc, Hu.
  cbn [negb bind ret constant]. unfold bind at 1.
  erewrite http_write_answer by exact Hp. reflexivity.
Qed.

Lemma inviteToChannel_with_ids_witness :
  Sample.observe
    (inviteToChannel "" "" (VString "U1") (VString "C1")
       (Sample.world [Sample.failure "not_in_channel"]))
  = (Returned (Some (Sample.failure "not_in_channel")), [],
     ["/api/channels.invite?token=xoxb-1&channel=C1&user=U1"]).
Proof.
  rewrite (inviteToChannel_with_ids "" "" (VString "U1") (VString "C1")
             (Sample.world [Sample.failure "not_in_channel"])
             (Sample.failure "not_in_channel") [] eq_refl eq_refl eq_refl
             eq_refl eq_refl).
  vm_compute. reflexivity.
Defined.

(** X19.  inviteToChannel gives up on the first name it cannot resolve.
    Without a channel id, a channel lookup that returns [null] ends the
    call with [null] before any user lookup.  With a channel id given and
    no user id, a user lookup that returns [null] ends the call with
    [null].  No invite request is sent in either case: the world is the
    one the lookup left. *)
Theorem inviteToChannel_null_when_unresolved (userName channelName : string)
    (userId channelId : value) (w w1 : World) :
  (truthy channelId = false ->
   getChannel channelName w = (Returned VNull, w1) ->
   inviteToChannel userName channelName userId channelId w
   = (Returned None, w1))
  /\ (truthy channelId = true -> truthy userId = false ->
      getUserInfo userName w = (Returned VNull, w1) ->
      inviteToChannel userName channelName userId channelId w
      = (Returned None, w1)).
Proof.
  split.
  - apply inviteToChannel_channel_not_found.
  - intros Hc Hu Hlookup. unfold inviteToChannel. rewrite Hc, Hu.
    cbn [negb bind ret]. unfold bind at 1. unfold bind at 1.
    rewrite Hlookup. reflexivity.
Qed.

Lemma inviteToChannel_null_when_unresolved_witness :
  Sample.observe
    (inviteToChannel "bob" "nochannel" VUndefined VUndefined
       (Sample.world [Sample.page "channels" [Sample.general] "";
                      Sample.page "members" [Sample.bob] ""]))
  = (Returned None, [Sample.page "members" [Sample.bob] ""],
     ["/api/channels.list?token=xoxb-1"])
  /\ Sample.observe
       (inviteToChannel "carol" "" VUndefined (VString "C1")
          (Sample.world [Sample.page "members" [Sample.bob] ""; Sample.success]))
     = (Returned None, [Sample.success], ["/api/users.list?token=xoxb-1"]).
Proof.
  split.
  - rewrite (proj1 (inviteToChannel_null_when_unresolved "bob" "nochannel"
                      VUndefined VUndefined
                      (Sample.world [Sample.page "channels" [Sample.general] "";
                                     Sample.page "members" [Sample.bob] ""])
                      (snd (getChannel "nochannel"
                         (Sample.world [Sample.page "channels" [Sample.general] "";
                                        Sample.page "members" [Sample.bob] ""])))));
      vm_compute; reflexivity.
  - rewrite (proj2 (inviteToChannel_null_when_unresolved "carol" ""
                      VUndefined (VString "C1")
                      (Sample.world [Sample.page "members" [Sample.bob] "";
                                     Sample.success])
                      (snd (getUserInfo "carol"
                         (Sample.world [Sample.page "members" [Sample.bob] "";
                                        Sample.success])))));
      vm_compute; reflexivity.
Defined.

(* ================================================================== *)
(** ** Exceptions are not caught *)
(* ================================================================== *)

(** X20.  Nothing in the script catches an exception.  When the channel
    lookup throws (an answer that is not JSON, a malformed page, a
    transport that fails), the function that called it ends with the same
    exception in the world the lookup left, so nothing is sent after it:
    getRoomHistory and inviteToChannel without a channel id for the lookup
    of the name as given, archiveChannel for the lookup of its canonical
    form, which is the one it makes. *)
Theorem lookup_exception_escapes (channelName : string) (e : Error)
    (w w1 : World) :
  (getChannel channelName w = (Thrown e, w1) ->
   (forall count latest oldest,
       getRoomHistory channelName count latest oldest w = (Thrown e, w1))
   /\ (forall userName userId channelId,
       truthy channelId = false ->
       inviteToChannel userName channelName userId channelId w
       = (Thrown e, w1)))
  /\ (getChannel (canonicalize channelName) w = (Thrown e, w1) ->
      archiveChannel channelName w = (Thrown e, w1)).
Proof.
  split.
  - intros Hlookup. split.
    + intros count latest oldest. unfold getRoomHistory, bind at 1.
      now rewrite Hlookup.
    + intros userName userId channelId Hc. unfold inviteToChannel.
      rewrite Hc. cbn [negb]. unfold bind at 1. unfold bind at 1.
      now rewrite Hlookup.
  - intros Hlookup. unfold archiveChannel, bind at 1.
    now rewrite Hlookup.
Qed.

Lemma lookup_exception_escapes_witness :
  Sample.observe
    (archiveChannel "general"
       (Sample.world [Sample.page "channels" [] "c1";
                      mkResponse 502 None;
                      Sample.success]))
  = (Thrown SyntaxError, [Sample.success],
     ["/api/channels.list?token=xoxb-1";
      "/api/channels.list?token=xoxb-1&cursor=c1"]).
Proof.
  destruct (lookup_exception_escapes "general" SyntaxError
              (Sample.world [Sample.page "channels" [] "c1";
                             mkResponse 502 None;
                             Sample.success])
              (snd (getChannel (canonicalize "general")
                 (Sample.world [Sample.page "channels" [] "c1";
                                mkResponse 502 None;
                                Sample.success]))))
    as [_ ->]; vm_compute; reflexivity.
Defined.

(* ================================================================== *)
(** ** Names with the same canonical form *)
(* ================================================================== *)

Section SameChannel.

Import Str.




End SameChannel.

(* ================================================================== *)
(** ** postMessageWithFields with a user *)
(* ================================================================== *)

(** X22.  postMessageWithFields for a user record sends one message whose
    text is the mention of the user's [id] followed by the text given, and
    returns the parsed answer when its [ok] is truthy and [null], after the
    console line "Error posting message!", when it is not; this is for a
    channel and a user whose [id]s are primitive values.  When the channel
    is [null] or [undefined] it throws a TypeError before anything is
    sent. *)
Theorem postMessageWithFields_result (text : string)
    (channel user : value) (w : World) :
  (forall cid uid r rest b ok,
      prop channel "id" = Returned cid -> primitive cid = true ->
      truthy user = true -> prop user "id" = Returned uid ->
      primitive uid = true ->
      truthy (VString text) = true ->
      pending w = r :: rest -> body r = Some b -> prop b "ok" = Returned ok ->
      postMessageWithFields text channel user w
      = (if truthy ok
         then (Returned b, sent (mention_request (token_of w) cid uid text) w)
         else (Returned VNull,
               logged "Error posting message!"
                 (sent (mention_request (token_of w) cid uid text) w))))
  /\ (prop channel "id" = Thrown TypeError ->
      postMessageWithFields text channel user w = (Thrown TypeError, w)).
Proof.
  split.
  - intros cid uid r rest b ok Hcid _ Huser Huid _ Htext Hp Hb Hok.
    unfold postMessageWithFields. rewrite Hcid, Huser, Huid, Htext.
    cbn [bind lift ret set_field get_field String.eqb Ascii.eqb Bool.eqb
         to_string constant].
    unfold bind at 1. erewrite http_write_answer by exact Hp.
    unfold JSON_parse. rewrite Hb. cbn [bind lift]. rewrite Hok.
    destruct (truthy ok); reflexivity.
  - intros Hcid. unfold postMessageWithFields. rewrite Hcid. reflexivity.
Qed.

Lemma postMessageWithFields_result_witness :
  Sample.observe
    (postMessageWithFields " please join" Sample.general Sample.bob
       (Sample.world [Sample.failure "not_in_channel"]))
  = (Returned VNull, [],
     ["/api/chat.postMessage?channel=C1&text=%3C%40U1%3E%20please%20join&token=xoxb-1"])
  /\ Sample.observe
       (postMessageWithFields " please join" VNull Sample.bob
          (Sample.world [Sample.success]))
     = (Thrown TypeError, [Sample.success], []).
Proof.
  destruct (postMessageWithFields_result " please join" Sample.general
              Sample.bob (Sample.world [Sample.failure "not_in_channel"]))
    as [Hsend _].
  destruct (postMessageWithFields_result " please join" VNull
              Sample.bob (Sample.world [Sample.success])) as [_ Hthrow].
  split.
  - rewrite (Hsend (VString "C1") (VString "U1")
               (Sample.failure "not_in_channel") []
               (VObject [("ok", VBool false);
                         ("error", VString "not_in_channel")])
               (VBool false) eq_refl eq_refl eq_refl eq_refl eq_refl eq_refl
               eq_refl eq_refl eq_refl).
    vm_compute. reflexivity.
  - rewrite (Hthrow eq_refl). reflexivity.
Defined.
